(** * Library circulation (app.py): loans, fines and notifications

    A shallow embedding of [app.py].  Python objects live in a store
    and are named by references, so that a book shared by several
    loans (and by several managers) is one mutable cell.  The methods of
    [GestorPrestamos] are programs of a small state monad over that
    store; the wall clock and the console are part of the store. *)

From Stdlib Require Import ZArith Lia.
From stdpp Require Import base option list strings relations.

Open Scope Z_scope.

(** ** datetime and timedelta *)

Module Tiempo.

(** A naive [datetime] is the number of microseconds since the first
    instant the type can hold.  The end of its range (year 9999) is not
    modelled: no reading of a clock comes within days of it. *)
Definition datetime := Z.

(** A [timedelta] is kept normalised the way Python does it:
    [0 <= seconds < 86400] and [0 <= microseconds < 1000000], the
    sign is carried by [days]. *)
Record timedelta := mk_timedelta {
  days : Z;
  seconds : Z;
  microseconds : Z
}.

Definition us_por_segundo : Z := 1000000.
Definition us_por_dia : Z := 86400 * us_por_segundo.

Definition total_us (d : timedelta) : Z :=
  days d * us_por_dia + seconds d * us_por_segundo + microseconds d.

Definition normalizar (us : Z) : timedelta :=
  {| days := us / us_por_dia;
     seconds := (us mod us_por_dia) / us_por_segundo;
     microseconds := us mod us_por_segundo |}.

(** [timedelta(days=n)] *)
Definition timedelta_days (n : Z) : timedelta := normalizar (n * us_por_dia).

(** [datetime + timedelta], [datetime - datetime], [datetime - timedelta],
    [datetime > datetime] *)
Definition datetime_add (t : datetime) (d : timedelta) : datetime := t + total_us d.
Definition datetime_sub (a b : datetime) : timedelta := normalizar (a - b).
Definition datetime_sub_timedelta (t : datetime) (d : timedelta) : datetime :=
  t - total_us d.
Definition datetime_gt (a b : datetime) : bool := b <? a.

End Tiempo.
Import Tiempo.

(** ** Records (SRP section of the source) *)

(** A reference to an object of the store. *)
Definition ref := nat.

Record Libro := mk_Libro {
  titulo : string;
  autor : string;
  isbn : string;
  disponible : bool
}.

Record Usuario := mk_Usuario {
  nombre : string;
  id_usuario : string
}.

Record Prestamo := mk_Prestamo {
  libro : ref;
  usuario : ref;
  fecha_prestamo : datetime;
  fecha_devolucion : datetime;
  devuelto : bool
}.

Definition con_disponible (v : bool) (B : Libro) : Libro :=
  {| titulo := titulo B; autor := autor B; isbn := isbn B; disponible := v |}.

Definition con_devuelto (v : bool) (P : Prestamo) : Prestamo :=
  {| libro := libro P; usuario := usuario P;
     fecha_prestamo := fecha_prestamo P;
     fecha_devolucion := fecha_devolucion P; devuelto := v |}.

Definition con_fecha_devolucion (t : datetime) (P : Prestamo) : Prestamo :=
  {| libro := libro P; usuario := usuario P;
     fecha_prestamo := fecha_prestamo P;
     fecha_devolucion := t; devuelto := devuelto P |}.

(** ** Fine policies (OCP section) *)

(** [CalculadoraMulta] is an abstract class with the one method
    [calcular]; an instance is the method. *)
Record CalculadoraMulta := mk_CalculadoraMulta {
  calcular : Z -> Z
}.

Definition MultaEstandar : CalculadoraMulta :=
  {| calcular := fun dias_retraso => dias_retraso * 10 |}.

Definition MultaEstudiante : CalculadoraMulta :=
  {| calcular := fun dias_retraso => dias_retraso * 5 |}.

Definition MultaVIP : CalculadoraMulta :=
  {| calcular := fun _ => 0 |}.

(** ** Console lines and notification channels (LSP section) *)

(** The text handed to a notifier.  The source formats it from the
    title and from the due date printed with [strftime('%Y-%m-%d')];
    the message is kept as those two values. *)
Inductive Mensaje :=
  | MsgPrestado (titulo_libro : string) (fecha : datetime).

(** One line written by [print]; the constructor stands for the fixed
    text, the arguments for the values interpolated in it. *)
Inductive Linea :=
  | LEmail (destinatario : string) (mensaje : Mensaje)
  | LSMS (destinatario : string) (mensaje : Mensaje)
  | LNoDisponible (titulo_libro : string)
  | LPrestamoRealizado (titulo_libro nombre_usuario : string)
  | LYaDevuelto
  | LRetraso (dias_retraso multa : Z)
  | LATiempo
  | LDevuelto (titulo_libro nombre_usuario : string).

(** [Notificador.enviar(mensaje, destinatario)]: the lines it prints and
    the boolean it returns. *)
Record Notificador := mk_Notificador {
  enviar : Mensaje -> string -> list Linea * bool
}.

Definition NotificadorEmail : Notificador :=
  {| enviar := fun mensaje destinatario => ([LEmail destinatario mensaje], true) |}.

Definition NotificadorSMS : Notificador :=
  {| enviar := fun mensaje destinatario => ([LSMS destinatario mensaje], true) |}.

(** ** The manager object and the store *)

Record GestorPrestamos := mk_GestorPrestamos {
  calculadora_multa : CalculadoraMulta;
  notificador : Notificador;
  prestamos : list ref
}.

Definition con_prestamos (l : list ref) (G : GestorPrestamos) : GestorPrestamos :=
  {| calculadora_multa := calculadora_multa G;
     notificador := notificador G; prestamos := l |}.

(** Objects are never freed: each class has its own table, a reference
    is an index in it and a new object goes at the end.  [reloj] gives
    the successive answers of [datetime.now()], [lecturas] counts the
    calls made so far; [salida] is the console, oldest line first. *)
Record Mundo := mk_Mundo {
  mem_libros : list Libro;
  mem_usuarios : list Usuario;
  mem_prestamos : list Prestamo;
  mem_gestores : list GestorPrestamos;
  reloj : nat -> datetime;
  lecturas : nat;
  salida : list Linea
}.

Definition con_libros (l : list Libro) (m : Mundo) : Mundo :=
  mk_Mundo l (mem_usuarios m) (mem_prestamos m) (mem_gestores m)
           (reloj m) (lecturas m) (salida m).
Definition con_usuarios (l : list Usuario) (m : Mundo) : Mundo :=
  mk_Mundo (mem_libros m) l (mem_prestamos m) (mem_gestores m)
           (reloj m) (lecturas m) (salida m).
Definition con_mem_prestamos (l : list Prestamo) (m : Mundo) : Mundo :=
  mk_Mundo (mem_libros m) (mem_usuarios m) l (mem_gestores m)
           (reloj m) (lecturas m) (salida m).
Definition con_gestores (l : list GestorPrestamos) (m : Mundo) : Mundo :=
  mk_Mundo (mem_libros m) (mem_usuarios m) (mem_prestamos m) l
           (reloj m) (lecturas m) (salida m).
Definition con_lecturas (n : nat) (m : Mundo) : Mundo :=
  mk_Mundo (mem_libros m) (mem_usuarios m) (mem_prestamos m) (mem_gestores m)
           (reloj m) n (salida m).
Definition con_salida (l : list Linea) (m : Mundo) : Mundo :=
  mk_Mundo (mem_libros m) (mem_usuarios m) (mem_prestamos m) (mem_gestores m)
           (reloj m) (lecturas m) l.

(** ** The monad of methods *)

(** A method takes the store and gives a result and the new store.
    [None] is a read through a reference that names no object, which a
    Python program cannot do; no modelled method raises. *)
Definition M (A : Type) : Type := Mundo -> option (A * Mundo).

Definition ret {A} (a : A) : M A := fun m => Some (a, m).

Definition bind {A B} (c : M A) (k : A -> M B) : M B :=
  fun m => match c m with
           | Some (a, m') => k a m'
           | None => None
           end.

Declare Scope metodo_scope.
Delimit Scope metodo_scope with metodo.
Notation "x <- c ;; k" := (bind c (fun x => k))
  (at level 90, c at next level, right associativity) : metodo_scope.
Notation "c ;;; k" := (bind c (fun _ => k))
  (at level 90, right associativity) : metodo_scope.
Open Scope metodo_scope.

Definition leer {A} (tabla : Mundo -> list A) (r : ref) : M A :=
  fun m => match tabla m !! r with
           | Some a => Some (a, m)
           | None => None
           end.

Definition leer_libro : ref -> M Libro := leer mem_libros.
Definition leer_usuario : ref -> M Usuario := leer mem_usuarios.
Definition leer_prestamo : ref -> M Prestamo := leer mem_prestamos.
Definition leer_gestor : ref -> M GestorPrestamos := leer mem_gestores.

(** [libro.disponible = v] *)
Definition asignar_disponible (b : ref) (v : bool) : M unit :=
  B <- leer_libro b ;;
  fun m => Some (tt, con_libros (<[b := con_disponible v B]> (mem_libros m)) m).

(** [prestamo.devuelto = v] *)
Definition asignar_devuelto (p : ref) (v : bool) : M unit :=
  P <- leer_prestamo p ;;
  fun m => Some (tt, con_mem_prestamos (<[p := con_devuelto v P]> (mem_prestamos m)) m).

(** [prestamo.fecha_devolucion = t] *)
Definition asignar_fecha_devolucion (p : ref) (t : datetime) : M unit :=
  P <- leer_prestamo p ;;
  fun m => Some (tt, con_mem_prestamos
                       (<[p := con_fecha_devolucion t P]> (mem_prestamos m)) m).

(** [self.prestamos.append(p)] *)
Definition agregar_prestamo (self p : ref) : M unit :=
  G <- leer_gestor self ;;
  fun m => Some (tt, con_gestores
                       (<[self := con_prestamos (prestamos G ++ [p]) G]> (mem_gestores m)) m).

Definition datetime_now : M datetime :=
  fun m => Some (reloj m (lecturas m), con_lecturas (S (lecturas m)) m).

Definition print (l : Linea) : M unit :=
  fun m => Some (tt, con_salida (salida m ++ [l]) m).

Definition print_todas (ls : list Linea) : M unit :=
  fun m => Some (tt, con_salida (salida m ++ ls) m).

(** ** Constructors *)

Definition Libro_init (titulo autor isbn : string) : M ref :=
  fun m => Some (length (mem_libros m),
                 con_libros (mem_libros m ++ [mk_Libro titulo autor isbn true]) m).

Definition Usuario_init (nombre id_usuario : string) : M ref :=
  fun m => Some (length (mem_usuarios m),
                 con_usuarios (mem_usuarios m ++ [mk_Usuario nombre id_usuario]) m).

Definition Prestamo_init (libro usuario : ref) : M ref :=
  fecha_prestamo <- datetime_now ;;
  ahora <- datetime_now ;;
  let fecha_devolucion := datetime_add ahora (timedelta_days 14) in
  fun m => Some (length (mem_prestamos m),
                 con_mem_prestamos
                   (mem_prestamos m ++
                      [mk_Prestamo libro usuario fecha_prestamo fecha_devolucion false]) m).

Definition GestorPrestamos_init (calculadora_multa : CalculadoraMulta)
    (notificador : Notificador) : M ref :=
  fun m => Some (length (mem_gestores m),
                 con_gestores (mem_gestores m ++
                                 [mk_GestorPrestamos calculadora_multa notificador []]) m).

(** ** GestorPrestamos.realizar_prestamo and GestorPrestamos.devolver_libro *)

Definition realizar_prestamo (self libro usuario : ref) : M (option ref) :=
  B <- leer_libro libro ;;
  if negb (disponible B) then
    print (LNoDisponible (titulo B)) ;;;
    ret None
  else
    asignar_disponible libro false ;;;
    prestamo <- Prestamo_init libro usuario ;;
    agregar_prestamo self prestamo ;;;
    B <- leer_libro libro ;;
    P <- leer_prestamo prestamo ;;
    let mensaje := MsgPrestado (titulo B) (fecha_devolucion P) in
    G <- leer_gestor self ;;
    U <- leer_usuario usuario ;;
    let '(lineas, _) := enviar (notificador G) mensaje (nombre U) in
    print_todas lineas ;;;
    print (LPrestamoRealizado (titulo B) (nombre U)) ;;;
    ret (Some prestamo).

Definition devolver_libro (self prestamo : ref) : M unit :=
  P <- leer_prestamo prestamo ;;
  if devuelto P then
    print LYaDevuelto
  else
    fecha_actual <- datetime_now ;;
    (if datetime_gt fecha_actual (fecha_devolucion P) then
       let dias_retraso := days (datetime_sub fecha_actual (fecha_devolucion P)) in
       G <- leer_gestor self ;;
       let multa := calcular (calculadora_multa G) dias_retraso in
       print (LRetraso dias_retraso multa)
     else
       print LATiempo) ;;;
    asignar_devuelto prestamo true ;;;
    P <- leer_prestamo prestamo ;;
    asignar_disponible (libro P) true ;;;
    B <- leer_libro (libro P) ;;
    U <- leer_usuario (usuario P) ;;
    print (LDevuelto (titulo B) (nombre U)).

(** ** The stores the two methods lead to *)

(** The loan object built by [Prestamo(libro, usuario)] in store [m]. *)
Definition prestamo_nuevo (m : Mundo) (b u : ref) : Prestamo :=
  mk_Prestamo b u (reloj m (lecturas m))
    (datetime_add (reloj m (S (lecturas m))) (timedelta_days 14)) false.

(** The store after a checkout of [b] for [u] that goes through. *)
Definition tras_prestamo (m : Mundo) (self b u : ref)
    (B : Libro) (G : GestorPrestamos) (U : Usuario) : Mundo :=
  let P := prestamo_nuevo m b u in
  mk_Mundo (<[b := con_disponible false B]> (mem_libros m))
           (mem_usuarios m)
           (mem_prestamos m ++ [P])
           (<[self := con_prestamos (prestamos G ++ [length (mem_prestamos m)]) G]>
              (mem_gestores m))
           (reloj m) (S (S (lecturas m)))
           ((salida m
               ++ fst (enviar (notificador G)
                         (MsgPrestado (titulo B) (fecha_devolucion P)) (nombre U)))
              ++ [LPrestamoRealizado (titulo B) (nombre U)]).

(** The line [devolver_libro] prints about the delay, for a return at
    [ahora] of a loan due at [vence] under fine policy [pol]. *)
Definition veredicto (pol : CalculadoraMulta) (ahora vence : datetime) : Linea :=
  if datetime_gt ahora vence then
    let dias_retraso := days (datetime_sub ahora vence) in
    LRetraso dias_retraso (calcular pol dias_retraso)
  else LATiempo.

(** The store after a return of loan [p] that goes through. *)
Definition tras_devolucion (m : Mundo) (p : ref) (P : Prestamo)
    (B : Libro) (U : Usuario) (l : Linea) : Mundo :=
  mk_Mundo (<[libro P := con_disponible true B]> (mem_libros m))
           (mem_usuarios m)
           (<[p := con_devuelto true P]> (mem_prestamos m))
           (mem_gestores m)
           (reloj m) (S (lecturas m))
           ((salida m ++ [l]) ++ [LDevuelto (titulo B) (nombre U)]).

(** ** Histories of the store *)

(** Before any operation no loan object exists and every manager has
    the empty list its constructor gives it; books, users and managers
    are arbitrary. *)
Definition inicial (m : Mundo) : Prop :=
  mem_prestamos m = [] /\
  forall g G, mem_gestores m !! g = Some G -> prestamos G = [].

(** One call of a constructor or of one of the two methods of a manager,
    on any arguments, or a due date set by hand as the driver does. *)
Inductive paso : Mundo -> Mundo -> Prop :=
  | paso_Libro_init t a i r m m' :
      Libro_init t a i m = Some (r, m') -> paso m m'
  | paso_Usuario_init n i r m m' :
      Usuario_init n i m = Some (r, m') -> paso m m'
  | paso_GestorPrestamos_init c n r m m' :
      GestorPrestamos_init c n m = Some (r, m') -> paso m m'
  | paso_realizar_prestamo self b u r m m' :
      realizar_prestamo self b u m = Some (r, m') -> paso m m'
  | paso_devolver_libro self p r m m' :
      devolver_libro self p m = Some (r, m') -> paso m m'
  | paso_asignar_fecha_devolucion p t r m m' :
      asignar_fecha_devolucion p t m = Some (r, m') -> paso m m'.

Definition alcanzable (m : Mundo) : Prop :=
  exists m0, inicial m0 /\ rtc paso m0 m.

(** What holds of the whole store along a history: a loan names a book
    that exists, a book with an open loan is not available, and a book
    has at most one open loan. *)
Record invariante (m : Mundo) : Prop := mk_invariante {
  inv_referencia : forall p P,
    mem_prestamos m !! p = Some P -> is_Some (mem_libros m !! libro P);
  inv_ocupado : forall p P B,
    mem_prestamos m !! p = Some P -> devuelto P = false ->
    mem_libros m !! libro P = Some B -> disponible B = false;
  inv_unico : forall p q P Q,
    mem_prestamos m !! p = Some P -> mem_prestamos m !! q = Some Q ->
    devuelto P = false -> devuelto Q = false ->
    libro P = libro Q -> p = q
}.

(** Every entry of a manager's list names a loan that exists. *)
Definition listas_validas (m : Mundo) : Prop :=
  forall g G p, mem_gestores m !! g = Some G -> p ∈ prestamos G ->
                is_Some (mem_prestamos m !! p).

(** ** What a history keeps *)

(** The shapes a step gives to the store. *)
Inductive forma_paso (m : Mundo) : Mundo -> Prop :=
  | forma_libro B :
      disponible B = true ->
      forma_paso m (con_libros (mem_libros m ++ [B]) m)
  | forma_usuario U :
      forma_paso m (con_usuarios (mem_usuarios m ++ [U]) m)
  | forma_gestor c n :
      forma_paso m (con_gestores (mem_gestores m ++ [mk_GestorPrestamos c n []]) m)
  | forma_linea l :
      forma_paso m (con_salida (salida m ++ [l]) m)
  | forma_prestamo self b u B G U :
      mem_libros m !! b = Some B -> disponible B = true ->
      mem_gestores m !! self = Some G -> mem_usuarios m !! u = Some U ->
      forma_paso m (tras_prestamo m self b u B G U)
  | forma_devolucion p P B U l :
      mem_prestamos m !! p = Some P -> devuelto P = false ->
      mem_libros m !! libro P = Some B -> mem_usuarios m !! usuario P = Some U ->
      forma_paso m (tras_devolucion m p P B U l)
  | forma_fecha p P t :
      mem_prestamos m !! p = Some P ->
      forma_paso m (con_mem_prestamos
                      (<[p := con_fecha_devolucion t P]> (mem_prestamos m)) m).

(** [m'] has every object of [m], with the fields that no method
    assigns unchanged: a user whole; a book but for [disponible]; a
    loan's book, user and checkout time, and its [devuelto] flag once
    it is set; a manager's policy and notifier, and its list as the
    beginning of the new one. *)
Record conserva (m m' : Mundo) : Prop := mk_conserva {
  cons_usuarios : forall u U,
    mem_usuarios m !! u = Some U -> mem_usuarios m' !! u = Some U;
  cons_libros : forall b B,
    mem_libros m !! b = Some B ->
    exists B', mem_libros m' !! b = Some B' /\
               titulo B' = titulo B /\ autor B' = autor B /\ isbn B' = isbn B;
  cons_prestamos : forall p P,
    mem_prestamos m !! p = Some P ->
    exists P', mem_prestamos m' !! p = Some P' /\
               libro P' = libro P /\ usuario P' = usuario P /\
               fecha_prestamo P' = fecha_prestamo P /\
               (devuelto P = true -> devuelto P' = true);
  cons_gestores : forall g G,
    mem_gestores m !! g = Some G ->
    exists G', mem_gestores m' !! g = Some G' /\
               calculadora_multa G' = calculadora_multa G /\
               notificador G' = notificador G /\
               prestamos G `prefix_of` prestamos G'
}.

(** How the lists of the managers share the loans of the store: no
    list holds a loan twice, no loan is in the lists of two managers,
    and every loan is in some list. *)
Record listas_propias (m : Mundo) : Prop := mk_listas_propias {
  lp_validas : listas_validas m;
  lp_sin_repetir : forall g G,
    mem_gestores m !! g = Some G -> NoDup (prestamos G);
  lp_disjuntas : forall g1 g2 G1 G2 p,
    mem_gestores m !! g1 = Some G1 -> mem_gestores m !! g2 = Some G2 ->
    p ∈ prestamos G1 -> p ∈ prestamos G2 -> g1 = g2;
  lp_cubren : forall p P,
    mem_prestamos m !! p = Some P ->
    exists g G, mem_gestores m !! g = Some G /\ p ∈ prestamos G
}.

(** Every loan names a user that exists. *)
Definition usuarios_validos (m : Mundo) : Prop :=
  forall p P, mem_prestamos m !! p = Some P ->
              is_Some (mem_usuarios m !! usuario P).

(** Every book is on the shelf. *)
Definition todos_disponibles (m : Mundo) : Prop :=
  forall b B, mem_libros m !! b = Some B -> disponible B = true.

(** A book that is not available has an open loan. *)
Definition ocupado_por_prestamo (m : Mundo) : Prop :=
  forall b B, mem_libros m !! b = Some B -> disponible B = false ->
    exists p P, mem_prestamos m !! p = Some P /\ libro P = b /\ devuelto P = false.

(** ** A small library, for examples *)

Module Ejemplo.

Definition libro1 : Libro := mk_Libro "1984" "George Orwell" "978-0-452-28423-4" true.
Definition usuario1 : Usuario := mk_Usuario "Ana García" "U001".
Definition gestor_regular : GestorPrestamos :=
  mk_GestorPrestamos MultaEstandar NotificadorEmail [].

(** A clock that starts at [t0] and moves one microsecond at each
    reading. *)
Definition t0 : datetime := 63900000000000000.
Definition reloj_us (n : nat) : datetime := t0 + Z.of_nat n.

(** One book on the shelf, one user, one manager, nothing lent. *)
Definition mundo0 : Mundo :=
  mk_Mundo [libro1] [usuario1] [] [gestor_regular] reloj_us 0 [].

(** The same with the book already lent out by hand. *)
Definition mundo_ocupado : Mundo :=
  mk_Mundo [con_disponible false libro1] [usuario1] [] [gestor_regular] reloj_us 0 [].

(** A loan of the book, due at [vence], returned or not. *)
Definition mundo_prestado (vence : datetime) (dev : bool) : Mundo :=
  mk_Mundo [con_disponible dev libro1] [usuario1]
           [mk_Prestamo 0%nat 0%nat t0 vence dev]
           [con_prestamos [0%nat] gestor_regular] reloj_us 5 [].

(** The calls that the driver [main] makes, in its order, without the
    headings it prints between them: two books, two users, a manager
    for regular users and one for students, a loan by each, the due
    date of the first loan set by hand three days back, and both loans
    returned. *)
Definition llamadas_de_main : M unit :=
  libro1 <- Libro_init "1984" "George Orwell" "978-0-452-28423-4" ;;
  libro2 <- Libro_init "Cien años de soledad" "Gabriel García Márquez"
              "978-84-376-0494-7" ;;
  usuario1 <- Usuario_init "Ana García" "U001" ;;
  usuario2 <- Usuario_init "Carlos López" "U002" ;;
  gestor_regular <- GestorPrestamos_init MultaEstandar NotificadorEmail ;;
  gestor_estudiante <- GestorPrestamos_init MultaEstudiante NotificadorSMS ;;
  prestamo1 <- realizar_prestamo gestor_regular libro1 usuario1 ;;
  prestamo2 <- realizar_prestamo gestor_estudiante libro2 usuario2 ;;
  match prestamo1, prestamo2 with
  | Some prestamo1, Some prestamo2 =>
      ahora <- datetime_now ;;
      asignar_fecha_devolucion prestamo1
        (datetime_sub_timedelta ahora (timedelta_days 3)) ;;;
      devolver_libro gestor_regular prestamo1 ;;;
      devolver_libro gestor_estudiante prestamo2
  | _, _ => fun _ => None
  end.

(** Nothing exists yet. *)
Definition mundo_vacio : Mundo := mk_Mundo [] [] [] [] reloj_us 0 [].

(** The store once the manager has lent the book of [mundo0]. *)
Definition mundo1 : Mundo :=
  tras_prestamo mundo0 0%nat 0%nat 0%nat libro1 gestor_regular usuario1.

(** A second manager, for students. *)
Definition gestor_estudiante : GestorPrestamos :=
  mk_GestorPrestamos MultaEstudiante NotificadorSMS [].

(** Two managers; the first one has lent the book, due at [vence]. *)
Definition mundo_dos_gestores (vence : datetime) : Mundo :=
  mk_Mundo [con_disponible false libro1] [usuario1]
           [mk_Prestamo 0%nat 0%nat t0 vence false]
           [con_prestamos [0%nat] gestor_regular; gestor_estudiante] reloj_us 5 [].

(** The store once the loan of [mundo1] is returned, on time. *)
Definition mundo2 : Mundo :=
  tras_devolucion mundo1 0%nat (prestamo_nuevo mundo0 0%nat 0%nat)
    (con_disponible false libro1) usuario1 LATiempo.

End Ejemplo.

(** ** Running the methods *)

Ltac reducir :=
  cbn [mem_libros mem_usuarios mem_prestamos mem_gestores reloj lecturas
       salida negb fst snd].

Ltac reducir_en H :=
  cbn [mem_libros mem_usuarios mem_prestamos mem_gestores reloj lecturas
       salida negb fst snd] in H.

Ltac desplegar :=
  unfold realizar_prestamo, devolver_libro, Prestamo_init, agregar_prestamo,
    asignar_disponible, asignar_devuelto, leer_libro, leer_usuario,
    leer_prestamo, leer_gestor, leer, datetime_now, print, print_todas,
    bind, ret, con_libros, con_usuarios, con_mem_prestamos, con_gestores,
    con_lecturas, con_salida;
  reducir.

Section Tablas.
Context {A : Type}.
Implicit Types (l : list A) (x y : A) (i j : nat).

Lemma tabla_nuevo l x : (l ++ [x]) !! length l = Some x.
Proof. by rewrite list_lookup_middle. Qed.

Lemma tabla_viejo l x i y : l !! i = Some y -> (l ++ [x]) !! i = Some y.
Proof. intros H. by apply lookup_app_l_Some. Qed.

Lemma tabla_asignado l i x y : l !! i = Some y -> <[i := x]> l !! i = Some x.
Proof. intros H. apply list_lookup_insert_eq. by eapply lookup_lt_Some. Qed.

Lemma tabla_nuevo_inv l x i y :
  (l ++ [x]) !! i = Some y -> l !! i = Some y \/ (i = length l /\ y = x).
Proof.
  intros H. destruct (decide (i < length l)%nat) as [Hlt|Hge].
  - left. by rewrite lookup_app_l in H.
  - right. rewrite lookup_app_r in H by lia.
    destruct (i - length l)%nat as [|k] eqn:E; simpl in H.
    + split; [lia | congruence].
    + by rewrite lookup_nil in H.
Qed.
End Tablas.

Lemma realizar_prestamo_rechazado m self b u B :
  mem_libros m !! b = Some B -> disponible B = false ->
  realizar_prestamo self b u m
  = Some (None, con_salida (salida m ++ [LNoDisponible (titulo B)]) m).
Proof. intros Hb Hd. desplegar. rewrite Hb. reducir. by rewrite Hd. Qed.

Lemma realizar_prestamo_hecho m self b u B G U :
  mem_libros m !! b = Some B -> disponible B = true ->
  mem_gestores m !! self = Some G -> mem_usuarios m !! u = Some U ->
  realizar_prestamo self b u m
  = Some (Some (length (mem_prestamos m)), tras_prestamo m self b u B G U).
Proof.
  intros Hb Hd Hg Hu. desplegar. rewrite Hb. reducir. rewrite Hd. reducir.
  rewrite Hb. reducir. rewrite Hg. reducir.
  rewrite (tabla_asignado _ _ _ _ Hb). reducir. rewrite tabla_nuevo. reducir.
  rewrite (tabla_asignado _ _ _ _ Hg). reducir. rewrite Hu. reducir.
  unfold tras_prestamo, prestamo_nuevo.
  by destruct (enviar _ _ _).
Qed.

Lemma realizar_prestamo_inv m self b u r m' :
  realizar_prestamo self b u m = Some (r, m') ->
  exists B, mem_libros m !! b = Some B /\
    ((disponible B = false /\ r = None /\
      m' = con_salida (salida m ++ [LNoDisponible (titulo B)]) m)
     \/ (disponible B = true /\
         exists G U, mem_gestores m !! self = Some G /\
                     mem_usuarios m !! u = Some U /\
                     r = Some (length (mem_prestamos m)) /\
                     m' = tras_prestamo m self b u B G U)).
Proof.
  intros H.
  destruct (mem_libros m !! b) as [B|] eqn:Hb;
    [|revert H; desplegar; by rewrite Hb].
  exists B. split; [done|].
  destruct (disponible B) eqn:Hd.
  - right. split; [done|].
    destruct (mem_gestores m !! self) as [G|] eqn:Hg;
      [|revert H; desplegar; rewrite Hb; reducir; rewrite Hd; reducir;
        rewrite Hb; reducir; by rewrite Hg].
    destruct (mem_usuarios m !! u) as [U|] eqn:Hu.
    + rewrite (realizar_prestamo_hecho _ _ _ _ _ _ _ Hb Hd Hg Hu) in H.
      exists G, U. by simplify_eq.
    + revert H; desplegar; rewrite Hb; reducir; rewrite Hd; reducir.
      rewrite Hb; reducir. rewrite Hg; reducir.
      rewrite (tabla_asignado _ _ _ _ Hb). reducir. rewrite tabla_nuevo. reducir.
      rewrite (tabla_asignado _ _ _ _ Hg). reducir. by rewrite Hu.
  - left. rewrite (realizar_prestamo_rechazado _ _ _ _ _ Hb Hd) in H.
    by simplify_eq.
Qed.

Lemma devolver_libro_repetido m self p P :
  mem_prestamos m !! p = Some P -> devuelto P = true ->
  devolver_libro self p m = Some (tt, con_salida (salida m ++ [LYaDevuelto]) m).
Proof. intros Hp Hd. desplegar. rewrite Hp. reducir. by rewrite Hd. Qed.

Lemma devolver_libro_a_tiempo m self p P B U :
  mem_prestamos m !! p = Some P -> devuelto P = false ->
  mem_libros m !! libro P = Some B -> mem_usuarios m !! usuario P = Some U ->
  datetime_gt (reloj m (lecturas m)) (fecha_devolucion P) = false ->
  devolver_libro self p m = Some (tt, tras_devolucion m p P B U LATiempo).
Proof.
  intros Hp Hd Hb Hu Ht. desplegar. rewrite Hp. reducir. rewrite Hd, Ht. reducir.
  rewrite Hp. reducir. rewrite (tabla_asignado _ _ _ _ Hp). reducir.
  cbn [libro usuario con_devuelto]. rewrite Hb. reducir.
  rewrite (tabla_asignado _ _ _ _ Hb). reducir. by rewrite Hu.
Qed.

Lemma devolver_libro_con_retraso m self p P B U G :
  mem_prestamos m !! p = Some P -> devuelto P = false ->
  mem_libros m !! libro P = Some B -> mem_usuarios m !! usuario P = Some U ->
  mem_gestores m !! self = Some G ->
  datetime_gt (reloj m (lecturas m)) (fecha_devolucion P) = true ->
  devolver_libro self p m
  = Some (tt, tras_devolucion m p P B U
                (veredicto (calculadora_multa G) (reloj m (lecturas m))
                   (fecha_devolucion P))).
Proof.
  intros Hp Hd Hb Hu Hg Ht. unfold veredicto. desplegar.
  rewrite Hp. reducir. rewrite Hd, Ht. reducir. rewrite Hg. reducir.
  rewrite Hp. reducir. rewrite (tabla_asignado _ _ _ _ Hp). reducir.
  cbn [libro usuario con_devuelto]. rewrite Hb. reducir.
  rewrite (tabla_asignado _ _ _ _ Hb). reducir. by rewrite Hu.
Qed.

Lemma devolver_libro_hecho m self p P B U G :
  mem_prestamos m !! p = Some P -> devuelto P = false ->
  mem_libros m !! libro P = Some B -> mem_usuarios m !! usuario P = Some U ->
  mem_gestores m !! self = Some G ->
  devolver_libro self p m
  = Some (tt, tras_devolucion m p P B U
                (veredicto (calculadora_multa G) (reloj m (lecturas m))
                   (fecha_devolucion P))).
Proof.
  intros Hp Hd Hb Hu Hg.
  destruct (datetime_gt (reloj m (lecturas m)) (fecha_devolucion P)) eqn:Ht.
  - by apply devolver_libro_con_retraso.
  - rewrite (devolver_libro_a_tiempo _ _ _ _ _ _ Hp Hd Hb Hu Ht).
    unfold veredicto. by rewrite Ht.
Qed.

Lemma devolver_libro_inv m self p r m' :
  devolver_libro self p m = Some (r, m') ->
  exists P, mem_prestamos m !! p = Some P /\
    ((devuelto P = true /\ m' = con_salida (salida m ++ [LYaDevuelto]) m)
     \/ (devuelto P = false /\
         exists B U l, mem_libros m !! libro P = Some B /\
                       mem_usuarios m !! usuario P = Some U /\
                       m' = tras_devolucion m p P B U l)).
Proof.
  intros H.
  destruct (mem_prestamos m !! p) as [P|] eqn:Hp;
    [|revert H; desplegar; by rewrite Hp].
  exists P. split; [done|].
  destruct (devuelto P) eqn:Hd.
  - left. rewrite (devolver_libro_repetido _ _ _ _ Hp Hd) in H. by simplify_eq.
  - right. split; [done|].
    destruct (mem_libros m !! libro P) as [B|] eqn:Hb.
    + destruct (mem_usuarios m !! usuario P) as [U|] eqn:Hu.
      * destruct (datetime_gt (reloj m (lecturas m)) (fecha_devolucion P)) eqn:Ht.
        -- destruct (mem_gestores m !! self) as [G|] eqn:Hg.
           ++ rewrite (devolver_libro_con_retraso _ _ _ _ _ _ _ Hp Hd Hb Hu Hg Ht) in H.
              eexists B, U, _. by simplify_eq.
           ++ revert H. desplegar. rewrite Hp. reducir. rewrite Hd, Ht. reducir.
              by rewrite Hg.
        -- rewrite (devolver_libro_a_tiempo _ _ _ _ _ _ Hp Hd Hb Hu Ht) in H.
           eexists B, U, _. by simplify_eq.
      * revert H. desplegar. rewrite Hp. reducir. rewrite Hd. reducir.
        destruct (datetime_gt _ _); reducir;
          [destruct (mem_gestores m !! self); reducir; [|done]|];
          rewrite Hp; reducir; rewrite (tabla_asignado _ _ _ _ Hp); reducir;
          cbn [libro usuario con_devuelto]; rewrite Hb; reducir;
          rewrite (tabla_asignado _ _ _ _ Hb); reducir; by rewrite Hu.
    + revert H. desplegar. rewrite Hp. reducir. rewrite Hd. reducir.
      destruct (datetime_gt _ _); reducir;
        [destruct (mem_gestores m !! self); reducir; [|done]|];
        rewrite Hp; reducir; rewrite (tabla_asignado _ _ _ _ Hp); reducir;
        cbn [libro usuario con_devuelto]; by rewrite Hb.
Qed.


(** ** Fine policies *)

(** C7: for every non-negative number of days [d] the standard policy
    charges [d * 10], the student policy [d * 5] and the VIP policy
    nothing; all three give 0 for 0 days, and for 3 days they give 30,
    15 and 0. *)
Theorem calcular_variantes (d : Z) :
  0 <= d ->
  (calcular MultaEstandar d = d * 10 /\
   calcular MultaEstudiante d = d * 5 /\
   calcular MultaVIP d = 0) /\
  (calcular MultaEstandar 0 = 0 /\
   calcular MultaEstudiante 0 = 0 /\
   calcular MultaVIP 0 = 0) /\
  (calcular MultaEstandar 3 = 30 /\
   calcular MultaEstudiante 3 = 15 /\
   calcular MultaVIP 3 = 0).
Proof. intros _. unfold MultaEstandar, MultaEstudiante, MultaVIP. by cbn. Qed.

Lemma calcular_variantes_witness :
  (calcular MultaEstandar 7 = 7 * 10 /\
   calcular MultaEstudiante 7 = 7 * 5 /\
   calcular MultaVIP 7 = 0) /\
  (calcular MultaEstandar 0 = 0 /\
   calcular MultaEstudiante 0 = 0 /\
   calcular MultaVIP 0 = 0) /\
  (calcular MultaEstandar 3 = 30 /\
   calcular MultaEstudiante 3 = 15 /\
   calcular MultaVIP 3 = 0).
Proof. apply (calcular_variantes 7). lia. Defined.

(** ** Checkout *)

(** C1: when the book is available, [realizar_prestamo] returns a loan
    that did not exist before; afterwards the book is not available,
    the loan names the book and the user and is not returned, and the
    manager's list is the old one with the loan at its end. *)
Theorem realizar_prestamo_libro_disponible
    (m : Mundo) (self b u : ref) (G : GestorPrestamos) (B : Libro) (U : Usuario) :
  mem_gestores m !! self = Some G ->
  mem_libros m !! b = Some B ->
  mem_usuarios m !! u = Some U ->
  disponible B = true ->
  exists (p : ref) (m' : Mundo) (P : Prestamo) (B' : Libro) (G' : GestorPrestamos),
    realizar_prestamo self b u m = Some (Some p, m') /\
    mem_libros m' !! b = Some B' /\ disponible B' = false /\
    mem_prestamos m !! p = None /\
    mem_prestamos m' !! p = Some P /\
    libro P = b /\ usuario P = u /\ devuelto P = false /\
    mem_gestores m' !! self = Some G' /\
    prestamos G' = prestamos G ++ [p].
Proof.
  intros Hg Hb Hu Hd.
  exists (length (mem_prestamos m)), (tras_prestamo m self b u B G U),
    (prestamo_nuevo m b u), (con_disponible false B),
    (con_prestamos (prestamos G ++ [length (mem_prestamos m)]) G).
  split; [by apply realizar_prestamo_hecho|].
  unfold tras_prestamo. reducir.
  split; [by eapply tabla_asignado|]. split; [done|].
  split; [by apply lookup_ge_None_2|].
  split; [apply tabla_nuevo|]. do 3 (split; [done|]).
  split; [by eapply tabla_asignado | done].
Qed.

Lemma realizar_prestamo_libro_disponible_witness :
  exists (p : ref) (m' : Mundo) (P : Prestamo) (B' : Libro) (G' : GestorPrestamos),
    realizar_prestamo 0%nat 0%nat 0%nat Ejemplo.mundo0 = Some (Some p, m') /\
    mem_libros m' !! 0%nat = Some B' /\ disponible B' = false /\
    mem_prestamos Ejemplo.mundo0 !! p = None /\
    mem_prestamos m' !! p = Some P /\
    libro P = 0%nat /\ usuario P = 0%nat /\ devuelto P = false /\
    mem_gestores m' !! 0%nat = Some G' /\
    prestamos G' = prestamos Ejemplo.gestor_regular ++ [p].
Proof.
  apply (realizar_prestamo_libro_disponible Ejemplo.mundo0 0%nat 0%nat 0%nat
           Ejemplo.gestor_regular Ejemplo.libro1 Ejemplo.usuario1);
    reflexivity.
Defined.

(** C2: when the book is not available, [realizar_prestamo] returns
    [None] without raising, and changes no book, user, loan or manager;
    it reads no clock and prints the one line of refusal. *)
Theorem realizar_prestamo_libro_no_disponible
    (m : Mundo) (self b u : ref) (B : Libro) :
  mem_libros m !! b = Some B ->
  disponible B = false ->
  exists m' : Mundo,
    realizar_prestamo self b u m = Some (None, m') /\
    mem_libros m' = mem_libros m /\
    mem_usuarios m' = mem_usuarios m /\
    mem_prestamos m' = mem_prestamos m /\
    mem_gestores m' = mem_gestores m /\
    lecturas m' = lecturas m /\
    salida m' = salida m ++ [LNoDisponible (titulo B)].
Proof.
  intros Hb Hd. eexists. split; [by apply realizar_prestamo_rechazado|].
  by repeat split.
Qed.

Lemma realizar_prestamo_libro_no_disponible_witness :
  exists m' : Mundo,
    realizar_prestamo 0%nat 0%nat 0%nat Ejemplo.mundo_ocupado = Some (None, m') /\
    mem_libros m' = mem_libros Ejemplo.mundo_ocupado /\
    mem_usuarios m' = mem_usuarios Ejemplo.mundo_ocupado /\
    mem_prestamos m' = mem_prestamos Ejemplo.mundo_ocupado /\
    mem_gestores m' = mem_gestores Ejemplo.mundo_ocupado /\
    lecturas m' = lecturas Ejemplo.mundo_ocupado /\
    salida m' = salida Ejemplo.mundo_ocupado ++ [LNoDisponible "1984"].
Proof.
  apply (realizar_prestamo_libro_no_disponible Ejemplo.mundo_ocupado 0%nat 0%nat 0%nat
           (con_disponible false Ejemplo.libro1)); reflexivity.
Defined.

(** ** Due date of a new loan *)

Lemma datetime_add_timedelta_days (t : datetime) (n : Z) :
  datetime_add t (timedelta_days n) = t + n * us_por_dia.
Proof.
  unfold datetime_add, timedelta_days, normalizar, total_us. cbn [days seconds microseconds].
  assert (Hd : us_por_dia = 86400 * us_por_segundo) by reflexivity.
  assert (Hs : us_por_segundo = 1000000) by reflexivity.
  rewrite Z.div_mul by (rewrite Hd, Hs; lia).
  rewrite Z.mod_mul by (rewrite Hd, Hs; lia).
  replace (n * us_por_dia) with ((n * 86400) * us_por_segundo) at 2 by (rewrite Hd; lia).
  rewrite Z.mod_mul by (rewrite Hs; lia).
  rewrite Z.div_0_l by (rewrite Hs; lia). lia.
Qed.

(** The two dates of the loan a checkout makes: the first reading of
    the clock, and the second reading plus fourteen days. *)
Lemma realizar_prestamo_fechas m self b u p m' P :
  realizar_prestamo self b u m = Some (Some p, m') ->
  mem_prestamos m' !! p = Some P ->
  fecha_prestamo P = reloj m (lecturas m) /\
  fecha_devolucion P = reloj m (S (lecturas m)) + 14 * us_por_dia.
Proof.
  intros H HP. apply realizar_prestamo_inv in H as (B & Hb & [(_ & ? & _)|(Hd & G & U & Hg & Hu & Hr & ->)]);
    [done|].
  injection Hr as ->. unfold tras_prestamo in HP. reducir_en HP.
  rewrite tabla_nuevo in HP. injection HP as <-.
  unfold prestamo_nuevo. cbn [fecha_prestamo fecha_devolucion].
  by rewrite datetime_add_timedelta_days.
Qed.

(** When the clock does not move between the two readings the loan is
    due fourteen days after its checkout time. *)
Lemma realizar_prestamo_catorce_dias m self b u p m' P :
  realizar_prestamo self b u m = Some (Some p, m') ->
  mem_prestamos m' !! p = Some P ->
  reloj m (S (lecturas m)) = reloj m (lecturas m) ->
  fecha_devolucion P = datetime_add (fecha_prestamo P) (timedelta_days 14).
Proof.
  intros H HP Heq. destruct (realizar_prestamo_fechas _ _ _ _ _ _ _ H HP) as [-> ->].
  by rewrite datetime_add_timedelta_days, Heq.
Qed.

(** C8: with a clock that moves by one microsecond between the two
    readings made by [Prestamo.__init__], the loan made by a successful
    checkout is due fourteen days and one microsecond after its checkout
    time, not fourteen days. *)
Theorem prestamo_vence_tras_segunda_lectura :
  exists (p : ref) (m' : Mundo) (P : Prestamo),
    realizar_prestamo 0%nat 0%nat 0%nat Ejemplo.mundo0 = Some (Some p, m') /\
    mem_prestamos m' !! p = Some P /\
    fecha_prestamo P = Ejemplo.t0 /\
    fecha_devolucion P = Ejemplo.t0 + 14 * us_por_dia + 1 /\
    fecha_devolucion P <> datetime_add (fecha_prestamo P) (timedelta_days 14).
Proof.
  exists 0%nat,
    (tras_prestamo Ejemplo.mundo0 0%nat 0%nat 0%nat
       Ejemplo.libro1 Ejemplo.gestor_regular Ejemplo.usuario1),
    (prestamo_nuevo Ejemplo.mundo0 0%nat 0%nat).
  split; [by apply realizar_prestamo_hecho|].
  split; [reflexivity|]. split; [reflexivity|].
  split; [by vm_compute|]. by vm_compute.
Qed.

(** ** Return *)

Lemma days_datetime_sub_cotas (a v : datetime) :
  let d := days (datetime_sub a v) in
  d * us_por_dia <= a - v < (d + 1) * us_por_dia.
Proof.
  unfold datetime_sub, normalizar. cbn [days].
  assert (Hpos : 0 < us_por_dia) by reflexivity.
  pose proof (Z.div_mod (a - v) us_por_dia) as Hdm.
  pose proof (Z.mod_pos_bound (a - v) us_por_dia Hpos) as Hb.
  lia.
Qed.

Lemma veredicto_retraso pol a v :
  (exists d, veredicto pol a v = LRetraso d (calcular pol d)) <-> v < a.
Proof.
  unfold veredicto, datetime_gt. destruct (Z.ltb_spec v a) as [Hlt|Hge].
  - split; [done|]. intros _. by eexists.
  - split; [by intros [d Hd]|lia].
Qed.

Lemma veredicto_a_tiempo pol a v : a <= v -> veredicto pol a v = LATiempo.
Proof.
  intros H. unfold veredicto, datetime_gt.
  by destruct (Z.ltb_spec v a) as [Hlt|Hge]; [lia|].
Qed.

(** C3: on a loan that is already returned, [devolver_libro] prints that
    it was already returned and changes no loan, book, user or manager;
    it does not read the clock. *)
Theorem devolver_libro_ya_devuelto (m : Mundo) (self p : ref) (P : Prestamo) :
  mem_prestamos m !! p = Some P ->
  devuelto P = true ->
  exists m' : Mundo,
    devolver_libro self p m = Some (tt, m') /\
    salida m' = salida m ++ [LYaDevuelto] /\
    mem_prestamos m' = mem_prestamos m /\
    mem_libros m' = mem_libros m /\
    mem_usuarios m' = mem_usuarios m /\
    mem_gestores m' = mem_gestores m /\
    lecturas m' = lecturas m.
Proof.
  intros Hp Hd. eexists. split; [by eapply devolver_libro_repetido|].
  by repeat split.
Qed.

Lemma devolver_libro_ya_devuelto_witness :
  exists m' : Mundo,
    devolver_libro 0%nat 0%nat (Ejemplo.mundo_prestado Ejemplo.t0 true) = Some (tt, m') /\
    salida m' = salida (Ejemplo.mundo_prestado Ejemplo.t0 true) ++ [LYaDevuelto] /\
    mem_prestamos m' = mem_prestamos (Ejemplo.mundo_prestado Ejemplo.t0 true) /\
    mem_libros m' = mem_libros (Ejemplo.mundo_prestado Ejemplo.t0 true) /\
    mem_usuarios m' = mem_usuarios (Ejemplo.mundo_prestado Ejemplo.t0 true) /\
    mem_gestores m' = mem_gestores (Ejemplo.mundo_prestado Ejemplo.t0 true) /\
    lecturas m' = lecturas (Ejemplo.mundo_prestado Ejemplo.t0 true).
Proof.
  apply (devolver_libro_ya_devuelto (Ejemplo.mundo_prestado Ejemplo.t0 true)
           0%nat 0%nat (mk_Prestamo 0%nat 0%nat Ejemplo.t0 Ejemplo.t0 true));
    reflexivity.
Defined.

(** A second return of the same loan, right after the first one went
    through, is the refused one. *)
Lemma devolver_libro_dos_veces m self self' p P B U G :
  mem_prestamos m !! p = Some P -> devuelto P = false ->
  mem_libros m !! libro P = Some B -> mem_usuarios m !! usuario P = Some U ->
  mem_gestores m !! self = Some G ->
  exists m1,
    devolver_libro self p m = Some (tt, m1) /\
    devolver_libro self' p m1 = Some (tt, con_salida (salida m1 ++ [LYaDevuelto]) m1).
Proof.
  intros Hp Hd Hb Hu Hg. eexists. split; [by eapply devolver_libro_hecho|].
  apply devolver_libro_repetido with (P := con_devuelto true P); [|done].
  unfold tras_devolucion. reducir. by eapply tabla_asignado.
Qed.

(** C4: on a loan that is not yet returned, [devolver_libro] goes
    through whatever the clock says, late or not; afterwards the loan is
    returned and its book is available. *)
Theorem devolver_libro_marca_devuelto
    (m : Mundo) (self p : ref) (P : Prestamo) (B : Libro) (U : Usuario)
    (G : GestorPrestamos) :
  mem_prestamos m !! p = Some P ->
  devuelto P = false ->
  mem_libros m !! libro P = Some B ->
  mem_usuarios m !! usuario P = Some U ->
  mem_gestores m !! self = Some G ->
  exists (m' : Mundo) (P' : Prestamo) (B' : Libro),
    devolver_libro self p m = Some (tt, m') /\
    mem_prestamos m' !! p = Some P' /\ devuelto P' = true /\
    libro P' = libro P /\
    mem_libros m' !! libro P = Some B' /\ disponible B' = true.
Proof.
  intros Hp Hd Hb Hu Hg.
  eexists _, (con_devuelto true P), (con_disponible true B).
  split; [by eapply devolver_libro_hecho|].
  unfold tras_devolucion. reducir.
  split; [by eapply tabla_asignado|]. do 2 (split; [done|]).
  split; [by eapply tabla_asignado | done].
Qed.

Lemma devolver_libro_marca_devuelto_witness :
  exists (m' : Mundo) (P' : Prestamo) (B' : Libro),
    devolver_libro 0%nat 0%nat (Ejemplo.mundo_prestado Ejemplo.t0 false) = Some (tt, m') /\
    mem_prestamos m' !! 0%nat = Some P' /\ devuelto P' = true /\
    libro P' = 0%nat /\
    mem_libros m' !! 0%nat = Some B' /\ disponible B' = true.
Proof.
  apply (devolver_libro_marca_devuelto (Ejemplo.mundo_prestado Ejemplo.t0 false)
           0%nat 0%nat (mk_Prestamo 0%nat 0%nat Ejemplo.t0 Ejemplo.t0 false)
           (con_disponible false Ejemplo.libro1) Ejemplo.usuario1
           (con_prestamos [0%nat] Ejemplo.gestor_regular));
    reflexivity.
Defined.

(** C5: on a loan that is not yet returned, [devolver_libro] prints the
    line with a fine exactly when the clock reads a time strictly after
    the due time; when the clock reads the due time itself, or before,
    it prints the on-time line and no fine. *)
Theorem devolver_libro_multa_solo_con_retraso
    (m : Mundo) (self p : ref) (P : Prestamo) (B : Libro) (U : Usuario)
    (G : GestorPrestamos) :
  mem_prestamos m !! p = Some P ->
  devuelto P = false ->
  mem_libros m !! libro P = Some B ->
  mem_usuarios m !! usuario P = Some U ->
  mem_gestores m !! self = Some G ->
  exists (m' : Mundo) (l : Linea),
    devolver_libro self p m = Some (tt, m') /\
    salida m' = salida m ++ [l; LDevuelto (titulo B) (nombre U)] /\
    ((exists d, l = LRetraso d (calcular (calculadora_multa G) d))
       <-> fecha_devolucion P < reloj m (lecturas m)) /\
    (reloj m (lecturas m) <= fecha_devolucion P -> l = LATiempo).
Proof.
  intros Hp Hd Hb Hu Hg. eexists _, _.
  split; [by eapply devolver_libro_hecho|].
  unfold tras_devolucion. reducir.
  split; [by rewrite <- app_assoc|].
  split; [apply veredicto_retraso | apply veredicto_a_tiempo].
Qed.

Lemma devolver_libro_multa_solo_con_retraso_witness :
  exists (m' : Mundo) (l : Linea),
    devolver_libro 0%nat 0%nat (Ejemplo.mundo_prestado (Ejemplo.t0 + 5) false)
    = Some (tt, m') /\
    salida m' = [] ++ [l; LDevuelto "1984" "Ana García"] /\
    ((exists d, l = LRetraso d (calcular MultaEstandar d))
       <-> Ejemplo.t0 + 5 < Ejemplo.reloj_us 5) /\
    (Ejemplo.reloj_us 5 <= Ejemplo.t0 + 5 -> l = LATiempo).
Proof.
  apply (devolver_libro_multa_solo_con_retraso
           (Ejemplo.mundo_prestado (Ejemplo.t0 + 5) false)
           0%nat 0%nat (mk_Prestamo 0%nat 0%nat Ejemplo.t0 (Ejemplo.t0 + 5) false)
           (con_disponible false Ejemplo.libro1) Ejemplo.usuario1
           (con_prestamos [0%nat] Ejemplo.gestor_regular));
    reflexivity.
Defined.

(** C6: on a loan that is not yet returned and with the clock strictly
    after the due time, [devolver_libro] prints a number of days [d] and
    a fine; [d] is the number of whole days in the time elapsed since
    the due time, rounded down, and the fine is what the manager's
    policy computes from [d]. *)
Theorem devolver_libro_dias_retraso
    (m : Mundo) (self p : ref) (P : Prestamo) (B : Libro) (U : Usuario)
    (G : GestorPrestamos) :
  mem_prestamos m !! p = Some P ->
  devuelto P = false ->
  mem_libros m !! libro P = Some B ->
  mem_usuarios m !! usuario P = Some U ->
  mem_gestores m !! self = Some G ->
  fecha_devolucion P < reloj m (lecturas m) ->
  exists (m' : Mundo) (d : Z),
    devolver_libro self p m = Some (tt, m') /\
    salida m' = salida m ++ [LRetraso d (calcular (calculadora_multa G) d);
                             LDevuelto (titulo B) (nombre U)] /\
    d * us_por_dia <= reloj m (lecturas m) - fecha_devolucion P < (d + 1) * us_por_dia.
Proof.
  intros Hp Hd Hb Hu Hg Ht.
  assert (Hgt : datetime_gt (reloj m (lecturas m)) (fecha_devolucion P) = true)
    by (by apply Z.ltb_lt).
  exists (tras_devolucion m p P B U
            (veredicto (calculadora_multa G) (reloj m (lecturas m)) (fecha_devolucion P))),
    (days (datetime_sub (reloj m (lecturas m)) (fecha_devolucion P))).
  split; [by apply devolver_libro_con_retraso|].
  unfold tras_devolucion, veredicto. rewrite Hgt. reducir.
  split; [by rewrite <- app_assoc | apply days_datetime_sub_cotas].
Qed.

Lemma devolver_libro_dias_retraso_witness :
  exists (m' : Mundo) (d : Z),
    devolver_libro 0%nat 0%nat
      (Ejemplo.mundo_prestado (Ejemplo.t0 - 3 * us_por_dia) false) = Some (tt, m') /\
    salida m' = [] ++ [LRetraso d (calcular MultaEstandar d);
                       LDevuelto "1984" "Ana García"] /\
    d * us_por_dia <= Ejemplo.reloj_us 5 - (Ejemplo.t0 - 3 * us_por_dia)
      < (d + 1) * us_por_dia.
Proof.
  apply (devolver_libro_dias_retraso
           (Ejemplo.mundo_prestado (Ejemplo.t0 - 3 * us_por_dia) false)
           0%nat 0%nat
           (mk_Prestamo 0%nat 0%nat Ejemplo.t0 (Ejemplo.t0 - 3 * us_por_dia) false)
           (con_disponible false Ejemplo.libro1) Ejemplo.usuario1
           (con_prestamos [0%nat] Ejemplo.gestor_regular));
    reflexivity.
Defined.

(** What the calls of the driver print, with a clock that moves one
    microsecond at each reading: the first loan is three days late and
    fined 30, the second is on time; both books end up available. *)
Example llamadas_de_main_salida :
  (fun m => (salida m, disponible <$> mem_libros m, devuelto <$> mem_prestamos m))
    <$> (snd <$> Ejemplo.llamadas_de_main Ejemplo.mundo_vacio)
  = Some ([LEmail "Ana García"
             (MsgPrestado "1984" (Ejemplo.t0 + 1 + 14 * us_por_dia));
           LPrestamoRealizado "1984" "Ana García";
           LSMS "Carlos López"
             (MsgPrestado "Cien años de soledad" (Ejemplo.t0 + 3 + 14 * us_por_dia));
           LPrestamoRealizado "Cien años de soledad" "Carlos López";
           LRetraso 3 30;
           LDevuelto "1984" "Ana García";
           LATiempo;
           LDevuelto "Cien años de soledad" "Carlos López"],
          [true; true], [true; true]).
Proof. by vm_compute. Qed.

(** A loan three days late under the standard policy is fined 30. *)
Example devolucion_tres_dias_tarde :
  salida <$> (snd <$> devolver_libro 0%nat 0%nat
                (Ejemplo.mundo_prestado (Ejemplo.t0 - 3 * us_por_dia) false))
  = Some [LRetraso 3 30; LDevuelto "1984" "Ana García"].
Proof. reflexivity. Qed.

(** C10: a return that goes through touches two fields only, the
    [devuelto] flag of the loan and the [disponible] flag of its book.
    Managers (and so every loan list, where the loan stays) and users
    are as before; no loan or book is added or removed; the loan keeps
    its book, user and both dates; the book keeps title, author and
    isbn; every other loan and every other book is as before. *)
Theorem devolver_libro_marco
    (m : Mundo) (self p : ref) (P : Prestamo) (B : Libro) (U : Usuario)
    (G : GestorPrestamos) :
  mem_prestamos m !! p = Some P ->
  devuelto P = false ->
  mem_libros m !! libro P = Some B ->
  mem_usuarios m !! usuario P = Some U ->
  mem_gestores m !! self = Some G ->
  exists (m' : Mundo) (P' : Prestamo) (B' : Libro),
    devolver_libro self p m = Some (tt, m') /\
    mem_gestores m' = mem_gestores m /\
    mem_usuarios m' = mem_usuarios m /\
    (forall g G0 q, mem_gestores m !! g = Some G0 -> q ∈ prestamos G0 ->
       exists G1, mem_gestores m' !! g = Some G1 /\ prestamos G1 = prestamos G0 /\
                  q ∈ prestamos G1) /\
    length (mem_prestamos m') = length (mem_prestamos m) /\
    length (mem_libros m') = length (mem_libros m) /\
    mem_prestamos m' !! p = Some P' /\
    libro P' = libro P /\ usuario P' = usuario P /\
    fecha_prestamo P' = fecha_prestamo P /\
    fecha_devolucion P' = fecha_devolucion P /\
    mem_libros m' !! libro P = Some B' /\
    titulo B' = titulo B /\ autor B' = autor B /\ isbn B' = isbn B /\
    (forall q, q <> p -> mem_prestamos m' !! q = mem_prestamos m !! q) /\
    (forall b, b <> libro P -> mem_libros m' !! b = mem_libros m !! b).
Proof.
  intros Hp Hd Hb Hu Hg.
  eexists _, (con_devuelto true P), (con_disponible true B).
  split; [by eapply devolver_libro_hecho|].
  unfold tras_devolucion. reducir.
  do 2 (split; [done|]).
  split; [intros g G0 q HG0 Hq; by exists G0|].
  split; [apply length_insert|]. split; [apply length_insert|].
  split; [by eapply tabla_asignado|]. do 4 (split; [done|]).
  split; [by eapply tabla_asignado|]. do 3 (split; [done|]).
  split; intros ? Hne; by apply list_lookup_insert_ne.
Qed.

Lemma devolver_libro_marco_witness :
  exists (m' : Mundo) (P' : Prestamo) (B' : Libro),
    devolver_libro 0%nat 0%nat (Ejemplo.mundo_prestado Ejemplo.t0 false) = Some (tt, m') /\
    mem_gestores m' = mem_gestores (Ejemplo.mundo_prestado Ejemplo.t0 false) /\
    mem_usuarios m' = mem_usuarios (Ejemplo.mundo_prestado Ejemplo.t0 false) /\
    (forall g G0 q,
       mem_gestores (Ejemplo.mundo_prestado Ejemplo.t0 false) !! g = Some G0 ->
       q ∈ prestamos G0 ->
       exists G1, mem_gestores m' !! g = Some G1 /\ prestamos G1 = prestamos G0 /\
                  q ∈ prestamos G1) /\
    length (mem_prestamos m') = 1%nat /\
    length (mem_libros m') = 1%nat /\
    mem_prestamos m' !! 0%nat = Some P' /\
    libro P' = 0%nat /\ usuario P' = 0%nat /\
    fecha_prestamo P' = Ejemplo.t0 /\
    fecha_devolucion P' = Ejemplo.t0 /\
    mem_libros m' !! 0%nat = Some B' /\
    titulo B' = "1984" /\ autor B' = "George Orwell" /\
    isbn B' = "978-0-452-28423-4" /\
    (forall q, q <> 0%nat ->
       mem_prestamos m' !! q = mem_prestamos (Ejemplo.mundo_prestado Ejemplo.t0 false) !! q) /\
    (forall b, b <> 0%nat ->
       mem_libros m' !! b = mem_libros (Ejemplo.mundo_prestado Ejemplo.t0 false) !! b).
Proof.
  apply (devolver_libro_marco (Ejemplo.mundo_prestado Ejemplo.t0 false)
           0%nat 0%nat (mk_Prestamo 0%nat 0%nat Ejemplo.t0 Ejemplo.t0 false)
           (con_disponible false Ejemplo.libro1) Ejemplo.usuario1
           (con_prestamos [0%nat] Ejemplo.gestor_regular));
    reflexivity.
Defined.

(** ** The availability invariant *)

Lemma invariante_inicial m : inicial m -> invariante m.
Proof.
  intros [Hvacio _]. split; intros p; intros; rewrite Hvacio in *;
    by rewrite lookup_nil in *.
Qed.

Lemma invariante_mismas_tablas m m' :
  mem_libros m' = mem_libros m -> mem_prestamos m' = mem_prestamos m ->
  invariante m -> invariante m'.
Proof. intros Hl Hp [H1 H2 H3]. split; rewrite ?Hl, ?Hp; eauto. Qed.

Lemma invariante_libro_nuevo m B :
  invariante m -> invariante (con_libros (mem_libros m ++ [B]) m).
Proof.
  intros [H1 H2 H3]. split; unfold con_libros; reducir.
  - intros p P Hp. destruct (H1 p P Hp) as [B0 HB0]. exists B0. by apply tabla_viejo.
  - intros p P B0 Hp Hd HB0. destruct (H1 p P Hp) as [B1 HB1].
    rewrite (tabla_viejo _ _ _ _ HB1) in HB0. simplify_eq. by eapply H2.
  - done.
Qed.

Lemma invariante_tras_prestamo m self b u B G U :
  mem_libros m !! b = Some B -> disponible B = true ->
  invariante m -> invariante (tras_prestamo m self b u B G U).
Proof.
  intros Hb Hd [H1 H2 H3].
  assert (Hlibre : forall p P, mem_prestamos m !! p = Some P ->
                               devuelto P = false -> libro P <> b).
  { intros p P Hp HdP Heq. rewrite <- Heq in Hb.
    specialize (H2 p P B Hp HdP Hb). congruence. }
  split; unfold tras_prestamo; reducir.
  - intros p P [Hp|[-> ->]]%tabla_nuevo_inv.
    + destruct (H1 p P Hp) as [B0 HB0].
      destruct (decide (libro P = b)) as [->|Hne].
      * eexists. by eapply tabla_asignado.
      * exists B0. by rewrite list_lookup_insert_ne.
    + eexists. by eapply tabla_asignado.
  - intros p P B0 [Hp|[-> ->]]%tabla_nuevo_inv HdP HB0.
    + rewrite list_lookup_insert_ne in HB0 by (apply not_eq_sym; by eapply Hlibre).
      by eapply H2.
    + cbn [libro prestamo_nuevo] in HB0.
      rewrite (tabla_asignado _ _ _ _ Hb) in HB0. by simplify_eq.
  - intros p q P Q [Hp|[-> ->]]%tabla_nuevo_inv [Hq|[-> ->]]%tabla_nuevo_inv
      HdP HdQ Hpq.
    + by eapply H3.
    + cbn [libro prestamo_nuevo] in Hpq. by destruct (Hlibre p P Hp HdP).
    + cbn [libro prestamo_nuevo] in Hpq. by destruct (Hlibre q Q Hq HdQ).
    + done.
Qed.

Lemma invariante_tras_devolucion m p P B U l :
  mem_prestamos m !! p = Some P -> devuelto P = false ->
  mem_libros m !! libro P = Some B ->
  invariante m -> invariante (tras_devolucion m p P B U l).
Proof.
  intros Hp Hd Hb [H1 H2 H3].
  assert (Hotro : forall q Q,
             <[p := con_devuelto true P]> (mem_prestamos m) !! q = Some Q ->
             devuelto Q = false ->
             q <> p /\ mem_prestamos m !! q = Some Q /\ libro Q <> libro P).
  { intros q Q [(-> & <- & _)|[Hne Hq]]%list_lookup_insert_Some HdQ; [done|].
    split; [done|]. split; [done|]. intros Heq.
    destruct Hne. symmetry. by eapply H3. }
  split; unfold tras_devolucion; reducir.
  - intros q Q [(-> & <- & _)|[Hne Hq]]%list_lookup_insert_Some.
    + eexists. cbn [libro con_devuelto]. by eapply tabla_asignado.
    + destruct (H1 q Q Hq) as [B0 HB0].
      destruct (decide (libro Q = libro P)) as [->|Hne'].
      * eexists. by eapply tabla_asignado.
      * exists B0. by rewrite list_lookup_insert_ne.
  - intros q Q B0 HQ HdQ HB0. destruct (Hotro q Q HQ HdQ) as (Hne & Hq & Hl).
    rewrite list_lookup_insert_ne in HB0 by done. by eapply H2.
  - intros q1 q2 Q1 Q2 HQ1 HQ2 Hd1 Hd2 Heq.
    destruct (Hotro q1 Q1 HQ1 Hd1) as (_ & Hq1 & _).
    destruct (Hotro q2 Q2 HQ2 Hd2) as (_ & Hq2 & _).
    by eapply H3.
Qed.

Lemma asignar_fecha_devolucion_inv p t r m m' :
  asignar_fecha_devolucion p t m = Some (r, m') ->
  exists P, mem_prestamos m !! p = Some P /\
    m' = con_mem_prestamos (<[p := con_fecha_devolucion t P]> (mem_prestamos m)) m.
Proof.
  unfold asignar_fecha_devolucion, leer_prestamo, leer, bind.
  destruct (mem_prestamos m !! p) as [P|]; [|done].
  intros H. exists P. by simplify_eq.
Qed.

Lemma invariante_fecha_devolucion m p P t :
  mem_prestamos m !! p = Some P ->
  invariante m ->
  invariante (con_mem_prestamos (<[p := con_fecha_devolucion t P]> (mem_prestamos m)) m).
Proof.
  intros Hp [H1 H2 H3].
  assert (Hmismo : forall q Q,
             <[p := con_fecha_devolucion t P]> (mem_prestamos m) !! q = Some Q ->
             exists Q0, mem_prestamos m !! q = Some Q0 /\
                        libro Q0 = libro Q /\ devuelto Q0 = devuelto Q).
  { intros q Q [(-> & <- & _)|[Hne Hq]]%list_lookup_insert_Some; by eexists. }
  split; unfold con_mem_prestamos; reducir.
  - intros q Q (Q0 & Hq & <- & _)%Hmismo. by eapply H1.
  - intros q Q B (Q0 & Hq & <- & <-)%Hmismo. by eapply H2.
  - intros q1 q2 Q1 Q2 (Q01 & Hq1 & <- & <-)%Hmismo (Q02 & Hq2 & <- & <-)%Hmismo.
    by eapply H3.
Qed.

Lemma invariante_paso m m' : paso m m' -> invariante m -> invariante m'.
Proof.
  intros [t a i r m1 m2 H|n i r m1 m2 H|c n r m1 m2 H
         |self b u r m1 m2 H|self p r m1 m2 H|p t r m1 m2 H] Hinv;
    [| | | | |apply asignar_fecha_devolucion_inv in H as (P & Hp & ->);
              by apply invariante_fecha_devolucion].
  - unfold Libro_init in H. simplify_eq. by apply invariante_libro_nuevo.
  - unfold Usuario_init in H. simplify_eq. by apply (invariante_mismas_tablas m1).
  - unfold GestorPrestamos_init in H. simplify_eq.
    by apply (invariante_mismas_tablas m1).
  - apply realizar_prestamo_inv in H
      as (B & Hb & [(_ & _ & ->)|(Hd & G & U & _ & _ & _ & ->)]).
    + by apply (invariante_mismas_tablas m1).
    + by apply invariante_tras_prestamo.
  - apply devolver_libro_inv in H
      as (P & Hp & [(_ & ->)|(Hd & B & U & l & Hb & _ & ->)]).
    + by apply (invariante_mismas_tablas m1).
    + by apply invariante_tras_devolucion.
Qed.

Lemma invariante_alcanzable m : alcanzable m -> invariante m.
Proof.
  intros (m0 & Hini & Hpasos). apply invariante_inicial in Hini.
  induction Hpasos as [|m1 m2 m3 Hpaso _ IH]; [done|].
  apply IH. by eapply invariante_paso.
Qed.

(** Along a history the lists of the managers stay valid. *)
Lemma listas_validas_paso m m' : paso m m' -> listas_validas m -> listas_validas m'.
Proof.
  intros [t a i r m1 m2 H|n i r m1 m2 H|c n r m1 m2 H
         |self b u r m1 m2 H|self p r m1 m2 H|p t r m1 m2 H] Hval g G0 q;
    [| | | | |apply asignar_fecha_devolucion_inv in H as (P & Hp & ->);
              unfold con_mem_prestamos; reducir; intros HG0 Hq;
              destruct (Hval _ _ _ HG0 Hq) as [Q HQ];
              destruct (decide (q = p)) as [->|Hne];
              [eexists; by eapply tabla_asignado
              |exists Q; by rewrite list_lookup_insert_ne]].
  - unfold Libro_init in H. simplify_eq. apply Hval.
  - unfold Usuario_init in H. simplify_eq. apply Hval.
  - unfold GestorPrestamos_init in H. simplify_eq. unfold con_gestores. reducir.
    intros [HG|[_ ->]]%tabla_nuevo_inv Hq; [by eapply Hval|].
    by apply elem_of_nil in Hq.
  - apply realizar_prestamo_inv in H
      as (B & Hb & [(_ & _ & ->)|(Hd & G & U & HG & _ & _ & ->)]); [apply Hval|].
    unfold tras_prestamo. reducir.
    intros [(-> & <- & _)|[Hne HG0]]%list_lookup_insert_Some Hq.
    + cbn [prestamos con_prestamos] in Hq.
      apply elem_of_app in Hq as [Hq|Hq%list_elem_of_singleton]; [|subst q].
      * destruct (Hval _ _ _ HG Hq) as [Q HQ]. exists Q. by apply tabla_viejo.
      * eexists. apply tabla_nuevo.
    + destruct (Hval _ _ _ HG0 Hq) as [Q HQ]. exists Q. by apply tabla_viejo.
  - apply devolver_libro_inv in H
      as (P & Hp & [(_ & ->)|(Hd & B & U & l & Hb & _ & ->)]); [apply Hval|].
    unfold tras_devolucion. reducir. intros HG0 Hq.
    destruct (Hval _ _ _ HG0 Hq) as [Q HQ].
    destruct (decide (q = p)) as [->|Hne].
    + eexists. by eapply tabla_asignado.
    + exists Q. by rewrite list_lookup_insert_ne.
Qed.

Lemma listas_validas_alcanzable m : alcanzable m -> listas_validas m.
Proof.
  intros (m0 & [_ Hini] & Hpasos).
  assert (H0 : listas_validas m0).
  { intros g G p HG Hp. rewrite (Hini _ _ HG) in Hp. by apply elem_of_nil in Hp. }
  clear Hini. induction Hpasos as [|m1 m2 m3 Hpaso _ IH]; [done|].
  apply IH. by eapply listas_validas_paso.
Qed.

(** C9: in every store reached from an initial one by calls of
    [realizar_prestamo] and [devolver_libro], whether they go through
    or are refused (calls of the constructors and due dates set by hand
    may come in between), a book named by a loan of some manager's list
    that is not returned is not available. *)
Theorem disponibilidad_invariante
    (m : Mundo) (self p : ref) (G : GestorPrestamos) (P : Prestamo) (B : Libro) :
  alcanzable m ->
  mem_gestores m !! self = Some G ->
  p ∈ prestamos G ->
  mem_prestamos m !! p = Some P ->
  devuelto P = false ->
  mem_libros m !! libro P = Some B ->
  disponible B = false.
Proof.
  intros Halc _ _ Hp Hd Hb.
  by eapply (inv_ocupado m (invariante_alcanzable m Halc)).
Qed.

Lemma mundo1_alcanzable : alcanzable Ejemplo.mundo1.
Proof.
  exists Ejemplo.mundo0. split.
  - split; [reflexivity|]. intros [|g] G HG; [|done].
    injection HG as <-. reflexivity.
  - apply rtc_once.
    apply (paso_realizar_prestamo 0%nat 0%nat 0%nat (Some 0%nat)).
    by apply realizar_prestamo_hecho.
Defined.

Lemma disponibilidad_invariante_witness :
  alcanzable Ejemplo.mundo1 /\
  0%nat ∈ prestamos (con_prestamos [0%nat] Ejemplo.gestor_regular) /\
  disponible (con_disponible false Ejemplo.libro1) = false.
Proof.
  split; [apply mundo1_alcanzable|]. split; [apply list_elem_of_here|].
  apply (disponibilidad_invariante Ejemplo.mundo1 0%nat 0%nat
           (con_prestamos [0%nat] Ejemplo.gestor_regular)
           (prestamo_nuevo Ejemplo.mundo0 0%nat 0%nat)
           (con_disponible false Ejemplo.libro1));
    [apply mundo1_alcanzable | reflexivity | apply list_elem_of_here
    | reflexivity | reflexivity | reflexivity].
Defined.

(** ** Histories: what every step keeps *)

Lemma paso_forma m m' : paso m m' -> forma_paso m m'.
Proof.
  intros [t a i r m1 m2 H|n i r m1 m2 H|c n r m1 m2 H
         |self b u r m1 m2 H|self p r m1 m2 H|p t r m1 m2 H].
  - unfold Libro_init in H. simplify_eq. by constructor.
  - unfold Usuario_init in H. simplify_eq. constructor.
  - unfold GestorPrestamos_init in H. simplify_eq. constructor.
  - apply realizar_prestamo_inv in H
      as (B & Hb & [(_ & _ & ->)|(Hd & G & U & HG & HU & _ & ->)]);
      [constructor | by constructor].
  - apply devolver_libro_inv in H
      as (P & Hp & [(_ & ->)|(Hd & B & U & l & Hb & HU & ->)]);
      [constructor | by constructor].
  - apply asignar_fecha_devolucion_inv in H as (P & Hp & ->). by constructor.
Qed.

Lemma conserva_refl m : conserva m m.
Proof. split; intros; eauto 10. Qed.

Lemma conserva_trans m1 m2 m3 : conserva m1 m2 -> conserva m2 m3 -> conserva m1 m3.
Proof.
  intros [U12 L12 P12 G12] [U23 L23 P23 G23]. split.
  - eauto.
  - intros b B (B' & HB' & Ht & Ha & Hi)%L12.
    apply L23 in HB' as (B'' & HB'' & Ht' & Ha' & Hi').
    exists B''. repeat split; congruence.
  - intros p P (P' & HP' & Hl & Hu & Hf & Hd)%P12.
    apply P23 in HP' as (P'' & HP'' & Hl' & Hu' & Hf' & Hd').
    exists P''. repeat split; [done|congruence..|auto].
  - intros g G (G' & HG' & Hc & Hn & Hp)%G12.
    apply G23 in HG' as (G'' & HG'' & Hc' & Hn' & Hp').
    exists G''. repeat split; [done|congruence..|by etrans].
Qed.

Lemma conserva_forma m m' : forma_paso m m' -> conserva m m'.
Proof.
  intros [B HB|U|c n|l|self b u B G U Hb Hd HG HU|p P B U l Hp Hd Hb HU|p P t Hp];
    unfold ref in *.
  - split; unfold con_libros; reducir; eauto 10.
    intros b B0 Hb. exists B0. split; [by apply tabla_viejo | by repeat split].
  - split; unfold con_usuarios; reducir; eauto 10.
    intros u U0 Hu. by apply tabla_viejo.
  - split; unfold con_gestores; reducir; eauto 10.
    intros g G Hg. exists G. split; [by apply tabla_viejo | by repeat split].
  - split; unfold con_salida; reducir; eauto 10.
  - split; unfold tras_prestamo; reducir.
    + done.
    + intros b0 B0 Hb0. destruct (decide (b0 = b)) as [->|Hne].
      * exists (con_disponible false B). assert (B0 = B) as -> by congruence.
        split; [by eapply tabla_asignado | by repeat split].
      * exists B0. by rewrite list_lookup_insert_ne.
    + intros p P Hp. exists P. split; [by apply tabla_viejo | by repeat split].
    + intros g G0 Hg. destruct (decide (g = self)) as [->|Hne].
      * assert (G0 = G) as -> by congruence.
        eexists. split; [by eapply tabla_asignado|].
        do 2 (split; [done|]). by apply prefix_app_r.
      * exists G0. by rewrite list_lookup_insert_ne.
  - split; unfold tras_devolucion; reducir.
    + done.
    + intros b0 B0 Hb0. destruct (decide (b0 = libro P)) as [->|Hne].
      * exists (con_disponible true B). assert (B0 = B) as -> by congruence.
        split; [by eapply tabla_asignado | by repeat split].
      * exists B0. by rewrite list_lookup_insert_ne.
    + intros q Q Hq. destruct (decide (q = p)) as [->|Hne].
      * exists (con_devuelto true P). assert (Q = P) as -> by congruence.
        split; [by eapply tabla_asignado | by repeat split].
      * exists Q. by rewrite list_lookup_insert_ne.
    + eauto 10.
  - split; unfold con_mem_prestamos; reducir; eauto 10.
    intros q Q Hq. destruct (decide (q = p)) as [->|Hne].
    + exists (con_fecha_devolucion t P). assert (Q = P) as -> by congruence.
      split; [by eapply tabla_asignado | by repeat split].
    + exists Q. by rewrite list_lookup_insert_ne.
Qed.

Lemma conserva_historia m m' : rtc paso m m' -> conserva m m'.
Proof.
  induction 1 as [|m1 m2 m3 Hpaso _ IH]; [apply conserva_refl|].
  eapply conserva_trans; [|done]. by apply conserva_forma, paso_forma.
Qed.

Lemma historia_ind (Q : Mundo -> Prop) :
  (forall m m', paso m m' -> Q m -> Q m') ->
  forall m m', rtc paso m m' -> Q m -> Q m'.
Proof.
  intros Hpaso m m' Hh. induction Hh as [|m1 m2 m3 H12 _ IH]; [done|].
  intros H1. apply IH. by eapply Hpaso.
Qed.

(** *** The lists of the managers *)

Lemma listas_propias_inicial m : inicial m -> listas_propias m.
Proof.
  intros [Hvacio Hlistas]. split.
  - intros g G p HG Hp. rewrite (Hlistas _ _ HG) in Hp. by apply elem_of_nil in Hp.
  - intros g G HG. rewrite (Hlistas _ _ HG). constructor.
  - intros g1 g2 G1 G2 p HG1 _ Hp. rewrite (Hlistas _ _ HG1) in Hp.
    by apply elem_of_nil in Hp.
  - intros p P HP. rewrite Hvacio in HP. by rewrite lookup_nil in HP.
Qed.

Lemma listas_propias_mismas m m' :
  mem_gestores m' = mem_gestores m ->
  length (mem_prestamos m') = length (mem_prestamos m) ->
  listas_propias m -> listas_propias m'.
Proof.
  intros HG Hlen [Hv Hn Hd Hc]. split.
  - intros g G p Hg Hp. rewrite HG in Hg. apply lookup_lt_is_Some. rewrite Hlen.
    apply lookup_lt_is_Some. by eapply Hv.
  - intros g G Hg. rewrite HG in Hg. by eapply Hn.
  - intros g1 g2 G1 G2 p H1 H2. rewrite HG in H1, H2. by eapply Hd.
  - intros p P HP. rewrite HG.
    assert (is_Some (mem_prestamos m !! p)) as [P0 HP0].
    { apply lookup_lt_is_Some. rewrite <- Hlen. by eapply lookup_lt_Some. }
    by eapply Hc.
Qed.

Lemma listas_propias_gestor_nuevo m c n :
  listas_propias m ->
  listas_propias (con_gestores (mem_gestores m ++ [mk_GestorPrestamos c n []]) m).
Proof.
  intros [Hv Hn Hd Hc]. split; unfold con_gestores; reducir.
  - intros g G p [HG|[_ ->]]%tabla_nuevo_inv Hp; [by eapply Hv|].
    by apply elem_of_nil in Hp.
  - intros g G [HG|[_ ->]]%tabla_nuevo_inv; [by eapply Hn | constructor].
  - intros g1 g2 G1 G2 p [H1|[-> ->]]%tabla_nuevo_inv [H2|[-> ->]]%tabla_nuevo_inv
      Hp1 Hp2; try (by eapply Hd); try (by apply elem_of_nil in Hp1);
      by apply elem_of_nil in Hp2.
  - intros p P HP. destruct (Hc p P HP) as (g & G & HG & Hp).
    exists g, G. split; [by apply tabla_viejo | done].
Qed.

Lemma listas_propias_tras_prestamo m self b u B G U :
  mem_gestores m !! self = Some G ->
  listas_propias m -> listas_propias (tras_prestamo m self b u B G U).
Proof.
  intros HG [Hv Hn Hd Hc]. unfold ref in *.
  assert (Hnuevo : forall g G0, mem_gestores m !! g = Some G0 ->
                                length (mem_prestamos m) ∉ prestamos G0).
  { intros g G0 HG0 Hin. destruct (Hv _ _ _ HG0 Hin) as [P HP].
    apply lookup_lt_Some in HP. lia. }
  assert (Hgest : forall g G',
             <[self := con_prestamos (prestamos G ++ [length (mem_prestamos m)]) G]>
               (mem_gestores m) !! g = Some G' ->
             (g = self /\ prestamos G' = prestamos G ++ [length (mem_prestamos m)]) \/
             (g <> self /\ mem_gestores m !! g = Some G')).
  { intros g G' [(-> & <- & _)|[Hne Hg]]%list_lookup_insert_Some;
      [by left | right; by split]. }
  split; unfold tras_prestamo; reducir.
  - intros g G' p [[-> Hl]|[Hne Hg]]%Hgest Hp.
    + rewrite Hl in Hp. apply elem_of_app in Hp as [Hp|Hp%list_elem_of_singleton].
      * destruct (Hv _ _ _ HG Hp) as [Q HQ]. exists Q. by apply tabla_viejo.
      * subst p. eexists. apply tabla_nuevo.
    + destruct (Hv _ _ _ Hg Hp) as [Q HQ]. exists Q. by apply tabla_viejo.
  - intros g G' [[-> Hl]|[Hne Hg]]%Hgest; [|by eapply Hn].
    rewrite Hl. apply NoDup_app. split; [by eapply Hn|]. split; [|apply NoDup_singleton].
    intros x Hx ->%list_elem_of_singleton. by eapply Hnuevo.
  - intros g1 g2 G1 G2 p [[-> Hl1]|[Hne1 Hg1]]%Hgest [[-> Hl2]|[Hne2 Hg2]]%Hgest
      Hp1 Hp2; [done| | |by eapply Hd].
    + rewrite Hl1 in Hp1. apply elem_of_app in Hp1 as [Hp1|Hp1%list_elem_of_singleton].
      * by eapply Hd.
      * subst p. by destruct (Hnuevo _ _ Hg2).
    + rewrite Hl2 in Hp2. apply elem_of_app in Hp2 as [Hp2|Hp2%list_elem_of_singleton].
      * by eapply Hd.
      * subst p. by destruct (Hnuevo _ _ Hg1).
  - intros p P [HP|[-> _]]%tabla_nuevo_inv.
    + destruct (Hc p P HP) as (g & G0 & HG0 & Hp).
      destruct (decide (g = self)) as [->|Hne].
      * assert (G0 = G) as -> by congruence.
        eexists self, _. split; [by eapply tabla_asignado|].
        cbn [prestamos con_prestamos]. apply elem_of_app. by left.
      * exists g, G0. split; [by rewrite list_lookup_insert_ne | done].
    + eexists self, _. split; [by eapply tabla_asignado|].
      cbn [prestamos con_prestamos]. apply elem_of_app. right.
      by apply list_elem_of_singleton.
Qed.

Lemma listas_propias_paso m m' : paso m m' -> listas_propias m -> listas_propias m'.
Proof.
  intros [B HB|U|c n|l|self b u B G U Hb Hd HG HU|p P B U l Hp Hd Hb HU|p P t Hp]%paso_forma
    Hlp.
  - by apply (listas_propias_mismas m).
  - by apply (listas_propias_mismas m).
  - by apply listas_propias_gestor_nuevo.
  - by apply (listas_propias_mismas m).
  - by apply listas_propias_tras_prestamo.
  - apply (listas_propias_mismas m); [done| |done].
    unfold tras_devolucion. reducir. apply length_insert.
  - apply (listas_propias_mismas m); [done| |done].
    unfold con_mem_prestamos. reducir. apply length_insert.
Qed.

Lemma listas_propias_alcanzable m : alcanzable m -> listas_propias m.
Proof.
  intros (m0 & Hini & Hh).
  eapply (historia_ind listas_propias); [apply listas_propias_paso|done|].
  by apply listas_propias_inicial.
Qed.

(** *** Loans name users that exist *)

Lemma usuarios_validos_paso m m' : paso m m' -> usuarios_validos m -> usuarios_validos m'.
Proof.
  intros [B HB|U|c n|l|self b u B G U Hb Hd HG HU|p P B U l Hp Hd Hb HU|p P t Hp]%paso_forma
    Hval; unfold ref in *; try done.
  - intros q Q HQ. destruct (Hval q Q HQ) as [U0 HU0]. exists U0.
    unfold con_usuarios. reducir. by apply tabla_viejo.
  - unfold tras_prestamo. intros q Q. reducir.
    intros [HQ|[_ ->]]%tabla_nuevo_inv; [by eapply Hval | by exists U].
  - unfold tras_devolucion. intros q Q. reducir.
    intros [(-> & <- & _)|[Hne HQ]]%list_lookup_insert_Some;
      [by apply (Hval q P) | by eapply Hval].
  - unfold con_mem_prestamos. intros q Q. reducir.
    intros [(-> & <- & _)|[Hne HQ]]%list_lookup_insert_Some;
      [by apply (Hval q P) | by eapply Hval].
Qed.

Lemma usuarios_validos_alcanzable m : alcanzable m -> usuarios_validos m.
Proof.
  intros (m0 & [Hvacio _] & Hh).
  eapply (historia_ind usuarios_validos); [apply usuarios_validos_paso|done|].
  intros p P HP. rewrite Hvacio in HP. by rewrite lookup_nil in HP.
Qed.

(** *** A book that is out has an open loan *)

Lemma ocupado_por_prestamo_paso m m' :
  paso m m' -> ocupado_por_prestamo m -> ocupado_por_prestamo m'.
Proof.
  intros [B HB|U|c n|l|self b u B G U Hb Hd HG HU|p P B U l Hp Hd Hb HU|p P t Hp]%paso_forma
    Hoc; unfold ref in *; try done.
  - unfold con_libros. intros b0 B0. reducir.
    intros [HB0|[_ ->]]%tabla_nuevo_inv HdB0; [by eapply Hoc | congruence].
  - unfold tras_prestamo. intros b0 B0. reducir. intros HB0 HdB0.
    destruct (decide (b0 = b)) as [->|Hne].
    + exists (length (mem_prestamos m)), (prestamo_nuevo m b u).
      split; [apply tabla_nuevo | done].
    + rewrite list_lookup_insert_ne in HB0 by done.
      destruct (Hoc _ _ HB0 HdB0) as (q & Q & HQ & Hl & HdQ).
      exists q, Q. split; [by apply tabla_viejo | done].
  - unfold tras_devolucion. intros b0 B0. reducir.
    intros [(_ & <- & _)|[Hne HB0]]%list_lookup_insert_Some HdB0; [done|].
    destruct (Hoc _ _ HB0 HdB0) as (q & Q & HQ & Hl & HdQ).
    exists q, Q. split; [|done].
    rewrite list_lookup_insert_ne; [done|]. intros ->.
    assert (Q = P) as -> by congruence. done.
  - unfold con_mem_prestamos. intros b0 B0. reducir. intros HB0 HdB0.
    destruct (Hoc _ _ HB0 HdB0) as (q & Q & HQ & Hl & HdQ).
    destruct (decide (q = p)) as [->|Hne].
    + assert (Q = P) as -> by congruence.
      exists p, (con_fecha_devolucion t P). split; [by eapply tabla_asignado | done].
    + exists q, Q. split; [by rewrite list_lookup_insert_ne | done].
Qed.

(** ** More on checkout *)

Lemma realizar_prestamo_exito_inv m self b u p m1 :
  realizar_prestamo self b u m = Some (Some p, m1) ->
  exists B G U,
    mem_libros m !! b = Some B /\ disponible B = true /\
    mem_gestores m !! self = Some G /\ mem_usuarios m !! u = Some U /\
    p = length (mem_prestamos m) /\ m1 = tras_prestamo m self b u B G U.
Proof.
  intros H. apply realizar_prestamo_inv in H
    as (B & Hb & [(_ & ? & _)|(Hd & G & U & HG & HU & Hr & ->)]); [done|].
  exists B, G, U. by simplify_eq.
Qed.

Lemma mundo0_presta :
  realizar_prestamo 0%nat 0%nat 0%nat Ejemplo.mundo0 = Some (Some 0%nat, Ejemplo.mundo1).
Proof.
  by apply (realizar_prestamo_hecho Ejemplo.mundo0 0%nat 0%nat 0%nat
              Ejemplo.libro1 Ejemplo.gestor_regular Ejemplo.usuario1).
Qed.

Lemma mundo0_historia : rtc paso Ejemplo.mundo0 Ejemplo.mundo1.
Proof.
  apply rtc_once. apply (paso_realizar_prestamo 0%nat 0%nat 0%nat (Some 0%nat)).
  apply mundo0_presta.
Qed.



(** X2: a checkout that goes through calls the notifier of its manager
    once, with the title of the book and the due date of the new loan,
    for the name of the user, and then prints that the loan is made,
    whatever the notifier answers.  With the e-mail notifier that is
    one e-mail line, with the SMS notifier one SMS line. *)
Theorem realizar_prestamo_notifica
    (m : Mundo) (self b u : ref) (G : GestorPrestamos) (B : Libro) (U : Usuario) :
  mem_gestores m !! self = Some G ->
  mem_libros m !! b = Some B ->
  mem_usuarios m !! u = Some U ->
  disponible B = true ->
  exists (p : ref) (m' : Mundo) (P : Prestamo),
    realizar_prestamo self b u m = Some (Some p, m') /\
    mem_prestamos m' !! p = Some P /\
    let mensaje := MsgPrestado (titulo B) (fecha_devolucion P) in
    salida m' = salida m ++ fst (enviar (notificador G) mensaje (nombre U))
                         ++ [LPrestamoRealizado (titulo B) (nombre U)] /\
    (notificador G = NotificadorEmail ->
     salida m' = salida m ++ [LEmail (nombre U) mensaje;
                              LPrestamoRealizado (titulo B) (nombre U)]) /\
    (notificador G = NotificadorSMS ->
     salida m' = salida m ++ [LSMS (nombre U) mensaje;
                              LPrestamoRealizado (titulo B) (nombre U)]).
Proof.
  intros Hg Hb Hu Hd. unfold ref in *.
  exists (length (mem_prestamos m)), (tras_prestamo m self b u B G U),
    (prestamo_nuevo m b u).
  split; [by apply realizar_prestamo_hecho|].
  unfold tras_prestamo. reducir. split; [apply tabla_nuevo|].
  cbv zeta. split; [by rewrite <- app_assoc|].
  split; intros ->; by rewrite <- app_assoc.
Qed.

Lemma realizar_prestamo_notifica_witness :
  exists (p : ref) (m' : Mundo) (P : Prestamo),
    realizar_prestamo 0%nat 0%nat 0%nat Ejemplo.mundo0 = Some (Some p, m') /\
    mem_prestamos m' !! p = Some P /\
    let mensaje := MsgPrestado "1984" (fecha_devolucion P) in
    salida m' = [] ++ fst (enviar NotificadorEmail mensaje "Ana García")
                   ++ [LPrestamoRealizado "1984" "Ana García"] /\
    (NotificadorEmail = NotificadorEmail ->
     salida m' = [] ++ [LEmail "Ana García" mensaje;
                        LPrestamoRealizado "1984" "Ana García"]) /\
    (NotificadorEmail = NotificadorSMS ->
     salida m' = [] ++ [LSMS "Ana García" mensaje;
                        LPrestamoRealizado "1984" "Ana García"]).
Proof.
  apply (realizar_prestamo_notifica Ejemplo.mundo0 0%nat 0%nat 0%nat
           Ejemplo.gestor_regular Ejemplo.libro1 Ejemplo.usuario1);
    reflexivity.
Defined.

(** X3: once a checkout of a book has gone through, a further checkout
    of the same book, by any manager and for any user, is refused: it
    returns [None], prints the refusal with the title of the book and
    changes no book, loan or manager. *)
Theorem realizar_prestamo_dos_veces
    (m m1 : Mundo) (self b u p self' u' : ref) :
  realizar_prestamo self b u m = Some (Some p, m1) ->
  exists (m2 : Mundo) (B1 : Libro),
    realizar_prestamo self' b u' m1 = Some (None, m2) /\
    mem_libros m1 !! b = Some B1 /\
    salida m2 = salida m1 ++ [LNoDisponible (titulo B1)] /\
    mem_libros m2 = mem_libros m1 /\
    mem_prestamos m2 = mem_prestamos m1 /\
    mem_gestores m2 = mem_gestores m1.
Proof.
  intros (B & G & U & Hb & Hd & HG & HU & -> & ->)%realizar_prestamo_exito_inv.
  unfold ref in *.
  assert (Hb1 : mem_libros (tras_prestamo m self b u B G U) !! b
                = Some (con_disponible false B)).
  { unfold tras_prestamo. reducir. by eapply tabla_asignado. }
  eexists _, (con_disponible false B).
  split; [by eapply realizar_prestamo_rechazado|]. by repeat split.
Qed.

Lemma realizar_prestamo_dos_veces_witness :
  exists (m2 : Mundo) (B1 : Libro),
    realizar_prestamo 7%nat 0%nat 9%nat Ejemplo.mundo1 = Some (None, m2) /\
    mem_libros Ejemplo.mundo1 !! 0%nat = Some B1 /\
    salida m2 = salida Ejemplo.mundo1 ++ [LNoDisponible (titulo B1)] /\
    mem_libros m2 = mem_libros Ejemplo.mundo1 /\
    mem_prestamos m2 = mem_prestamos Ejemplo.mundo1 /\
    mem_gestores m2 = mem_gestores Ejemplo.mundo1.
Proof.
  apply (realizar_prestamo_dos_veces Ejemplo.mundo0 Ejemplo.mundo1
           0%nat 0%nat 0%nat 0%nat 7%nat 9%nat).
  apply mundo0_presta.
Defined.

(** X4: a loan made by a checkout can be returned through any manager
    that exists; the book is then available again, a new checkout of it
    goes through and gives another loan, and the first loan is still
    there, returned. *)
Theorem prestar_devolver_prestar
    (m m1 : Mundo) (self b u p self' : ref) :
  realizar_prestamo self b u m = Some (Some p, m1) ->
  is_Some (mem_gestores m !! self') ->
  exists (m2 m3 : Mundo) (p' : ref) (P : Prestamo) (B2 : Libro),
    devolver_libro self' p m1 = Some (tt, m2) /\
    mem_libros m2 !! b = Some B2 /\ disponible B2 = true /\
    realizar_prestamo self b u m2 = Some (Some p', m3) /\
    p' <> p /\
    mem_prestamos m3 !! p = Some P /\ devuelto P = true /\ libro P = b.
Proof.
  intros (B & G & U & Hb & Hd & HG & HU & -> & ->)%realizar_prestamo_exito_inv HG'.
  unfold ref in *.
  set (m1 := tras_prestamo m self b u B G U).
  set (P1 := prestamo_nuevo m b u).
  assert (Hp1 : mem_prestamos m1 !! length (mem_prestamos m) = Some P1)
    by (unfold m1, tras_prestamo; reducir; apply tabla_nuevo).
  assert (Hb1 : mem_libros m1 !! libro P1 = Some (con_disponible false B))
    by (unfold m1, tras_prestamo; reducir; by eapply tabla_asignado).
  assert (Hu1 : mem_usuarios m1 !! usuario P1 = Some U) by done.
  assert (is_Some (mem_gestores m1 !! self')) as [G1 HG1].
  { apply lookup_lt_is_Some. unfold m1, tras_prestamo. reducir.
    rewrite length_insert. by apply lookup_lt_is_Some. }
  pose proof (devolver_libro_hecho m1 self' _ P1 _ U G1 Hp1 eq_refl Hb1 Hu1 HG1) as Hdev.
  set (m2 := tras_devolucion m1 (length (mem_prestamos m)) P1
               (con_disponible false B) U
               (veredicto (calculadora_multa G1) (reloj m1 (lecturas m1))
                  (fecha_devolucion P1))) in *.
  assert (Hb2 : mem_libros m2 !! b = Some (con_disponible true (con_disponible false B)))
    by (unfold m2, tras_devolucion; reducir; by eapply (tabla_asignado _ b)).
  assert (HG2 : mem_gestores m2 !! self
                = Some (con_prestamos (prestamos G ++ [length (mem_prestamos m)]) G))
    by (unfold m2, tras_devolucion, m1, tras_prestamo; reducir; by eapply tabla_asignado).
  assert (Hu2 : mem_usuarios m2 !! u = Some U) by done.
  assert (Hp2 : mem_prestamos m2 !! length (mem_prestamos m) = Some (con_devuelto true P1))
    by (unfold m2, tras_devolucion; reducir; by eapply tabla_asignado).
  assert (Hlen : length (mem_prestamos m2) = S (length (mem_prestamos m))).
  { unfold m2, tras_devolucion, m1, tras_prestamo. reducir.
    rewrite length_insert, length_app. cbn [length]. lia. }
  eexists m2, _, (length (mem_prestamos m2)), (con_devuelto true P1), _.
  split; [done|]. split; [done|]. split; [done|].
  split; [by apply (realizar_prestamo_hecho m2 self b u _ _ U Hb2 eq_refl HG2)|].
  split; [lia|]. split; [|done].
  unfold tras_prestamo at 1. reducir. by apply tabla_viejo.
Qed.

Lemma prestar_devolver_prestar_witness :
  exists (m2 m3 : Mundo) (p' : ref) (P : Prestamo) (B2 : Libro),
    devolver_libro 0%nat 0%nat Ejemplo.mundo1 = Some (tt, m2) /\
    mem_libros m2 !! 0%nat = Some B2 /\ disponible B2 = true /\
    realizar_prestamo 0%nat 0%nat 0%nat m2 = Some (Some p', m3) /\
    p' <> 0%nat /\
    mem_prestamos m3 !! 0%nat = Some P /\ devuelto P = true /\ libro P = 0%nat.
Proof.
  apply (prestar_devolver_prestar Ejemplo.mundo0 Ejemplo.mundo1
           0%nat 0%nat 0%nat 0%nat 0%nat);
    [apply mundo0_presta | by eexists].
Defined.

(** X5: a loan returned right after its checkout, while the clock has
    not moved more than fourteen days since the second reading that the
    checkout made, is on time: the return prints no fine. *)
Theorem devolucion_inmediata_a_tiempo
    (m m1 : Mundo) (self b u p self' : ref) (B : Libro) (U : Usuario) :
  realizar_prestamo self b u m = Some (Some p, m1) ->
  mem_libros m !! b = Some B ->
  mem_usuarios m !! u = Some U ->
  reloj m (S (S (lecturas m))) <= reloj m (S (lecturas m)) + 14 * us_por_dia ->
  exists m2 : Mundo,
    devolver_libro self' p m1 = Some (tt, m2) /\
    salida m2 = salida m1 ++ [LATiempo; LDevuelto (titulo B) (nombre U)].
Proof.
  intros (B0 & G & U0 & Hb & Hd & HG & HU & -> & ->)%realizar_prestamo_exito_inv
    Hb' Hu' Hreloj.
  unfold ref in *. assert (B0 = B) as -> by congruence.
  assert (U0 = U) as -> by congruence.
  set (m1 := tras_prestamo m self b u B G U).
  set (P1 := prestamo_nuevo m b u).
  assert (Hp1 : mem_prestamos m1 !! length (mem_prestamos m) = Some P1)
    by (unfold m1, tras_prestamo; reducir; apply tabla_nuevo).
  assert (Hb1 : mem_libros m1 !! libro P1 = Some (con_disponible false B))
    by (unfold m1, tras_prestamo; reducir; by eapply tabla_asignado).
  assert (Hu1 : mem_usuarios m1 !! usuario P1 = Some U) by done.
  assert (Ht : datetime_gt (reloj m1 (lecturas m1)) (fecha_devolucion P1) = false).
  { unfold datetime_gt. apply Z.ltb_ge. unfold m1, tras_prestamo, P1, prestamo_nuevo.
    reducir. cbn [fecha_devolucion]. by rewrite datetime_add_timedelta_days. }
  eexists. split;
    [by apply (devolver_libro_a_tiempo m1 self' _ P1 _ U Hp1 eq_refl Hb1 Hu1 Ht)|].
  unfold tras_devolucion. reducir. by rewrite <- app_assoc.
Qed.

Lemma devolucion_inmediata_a_tiempo_witness :
  exists m2 : Mundo,
    devolver_libro 3%nat 0%nat Ejemplo.mundo1 = Some (tt, m2) /\
    salida m2 = salida Ejemplo.mundo1 ++ [LATiempo; LDevuelto "1984" "Ana García"].
Proof.
  apply (devolucion_inmediata_a_tiempo Ejemplo.mundo0 Ejemplo.mundo1
           0%nat 0%nat 0%nat 0%nat 3%nat Ejemplo.libro1 Ejemplo.usuario1);
    [apply mundo0_presta | reflexivity | reflexivity | by vm_compute].
Defined.

(** X6: the time between checkout and due date of a new loan is
    fourteen days plus what the clock moved between the two readings
    of [Prestamo.__init__]; with a clock that does not go back the
    user has at least fourteen days. *)
Theorem plazo_de_catorce_dias
    (m m1 : Mundo) (self b u p : ref) (P : Prestamo) :
  realizar_prestamo self b u m = Some (Some p, m1) ->
  mem_prestamos m1 !! p = Some P ->
  fecha_devolucion P - fecha_prestamo P
  = 14 * us_por_dia + (reloj m (S (lecturas m)) - reloj m (lecturas m)) /\
  (reloj m (lecturas m) <= reloj m (S (lecturas m)) ->
   fecha_prestamo P + 14 * us_por_dia <= fecha_devolucion P).
Proof.
  intros H HP. destruct (realizar_prestamo_fechas _ _ _ _ _ _ _ H HP) as [-> ->].
  split; lia.
Qed.

Lemma plazo_de_catorce_dias_witness :
  fecha_devolucion (prestamo_nuevo Ejemplo.mundo0 0%nat 0%nat)
  - fecha_prestamo (prestamo_nuevo Ejemplo.mundo0 0%nat 0%nat)
  = 14 * us_por_dia + (Ejemplo.reloj_us 1 - Ejemplo.reloj_us 0) /\
  (Ejemplo.reloj_us 0 <= Ejemplo.reloj_us 1 ->
   fecha_prestamo (prestamo_nuevo Ejemplo.mundo0 0%nat 0%nat) + 14 * us_por_dia
   <= fecha_devolucion (prestamo_nuevo Ejemplo.mundo0 0%nat 0%nat)).
Proof.
  apply (plazo_de_catorce_dias Ejemplo.mundo0 Ejemplo.mundo1
           0%nat 0%nat 0%nat 0%nat (prestamo_nuevo Ejemplo.mundo0 0%nat 0%nat));
    [apply mundo0_presta | reflexivity].
Defined.

(** ** More on return *)

Lemma days_menor_de_un_dia (a v : datetime) :
  v < a -> a - v < us_por_dia -> days (datetime_sub a v) = 0.
Proof.
  intros Hlt Hdia. unfold datetime_sub, normalizar. cbn [days].
  apply Z.div_small. lia.
Qed.

Lemma days_creciente (a1 a2 v : datetime) :
  a1 <= a2 -> days (datetime_sub a1 v) <= days (datetime_sub a2 v).
Proof.
  intros Hle. unfold datetime_sub, normalizar. cbn [days].
  apply Z.div_le_mono; [reflexivity | lia].
Qed.

Lemma days_no_negativo (a v : datetime) : v <= a -> 0 <= days (datetime_sub a v).
Proof.
  intros Hle. unfold datetime_sub, normalizar. cbn [days].
  apply Z.div_pos; [lia | reflexivity].
Qed.

(** X7: a loan returned late by less than one day is reported as late
    by 0 days, with the fine that the policy gives for 0 days; under
    each of the three policies of the source that fine is 0. *)
Theorem devolver_libro_retraso_de_horas
    (m : Mundo) (self p : ref) (P : Prestamo) (B : Libro) (U : Usuario)
    (G : GestorPrestamos) :
  mem_prestamos m !! p = Some P ->
  devuelto P = false ->
  mem_libros m !! libro P = Some B ->
  mem_usuarios m !! usuario P = Some U ->
  mem_gestores m !! self = Some G ->
  fecha_devolucion P < reloj m (lecturas m) ->
  reloj m (lecturas m) - fecha_devolucion P < us_por_dia ->
  exists m' : Mundo,
    devolver_libro self p m = Some (tt, m') /\
    salida m' = salida m ++ [LRetraso 0 (calcular (calculadora_multa G) 0);
                             LDevuelto (titulo B) (nombre U)] /\
    (calculadora_multa G = MultaEstandar \/
     calculadora_multa G = MultaEstudiante \/
     calculadora_multa G = MultaVIP ->
     calcular (calculadora_multa G) 0 = 0).
Proof.
  intros Hp Hd Hb Hu Hg Hlt Hdia. unfold ref in *.
  assert (Hgt : datetime_gt (reloj m (lecturas m)) (fecha_devolucion P) = true)
    by (by apply Z.ltb_lt).
  eexists. split; [by apply devolver_libro_con_retraso|].
  unfold tras_devolucion, veredicto. rewrite Hgt. reducir.
  rewrite (days_menor_de_un_dia _ _ Hlt Hdia).
  split; [by rewrite <- app_assoc|]. by intros [->|[->| ->]].
Qed.

Lemma devolver_libro_retraso_de_horas_witness :
  exists m' : Mundo,
    devolver_libro 0%nat 0%nat (Ejemplo.mundo_prestado Ejemplo.t0 false) = Some (tt, m') /\
    salida m' = [] ++ [LRetraso 0 (calcular MultaEstandar 0);
                       LDevuelto "1984" "Ana García"] /\
    (MultaEstandar = MultaEstandar \/
     MultaEstandar = MultaEstudiante \/
     MultaEstandar = MultaVIP ->
     calcular MultaEstandar 0 = 0).
Proof.
  apply (devolver_libro_retraso_de_horas (Ejemplo.mundo_prestado Ejemplo.t0 false)
           0%nat 0%nat (mk_Prestamo 0%nat 0%nat Ejemplo.t0 Ejemplo.t0 false)
           (con_disponible false Ejemplo.libro1) Ejemplo.usuario1
           (con_prestamos [0%nat] Ejemplo.gestor_regular));
    try reflexivity; by vm_compute.
Defined.



(** X9: [devolver_libro] does not look at the list of the manager it is
    called on.  An open loan can be returned through any manager that
    exists; whichever is used, books, loans and managers end up the
    same, and the whole store is the same when the two managers have
    the same policy or when the return is on time. *)
Theorem devolver_libro_cualquier_gestor
    (m : Mundo) (self1 self2 p : ref) (P : Prestamo) (B : Libro) (U : Usuario)
    (G1 G2 : GestorPrestamos) :
  mem_prestamos m !! p = Some P ->
  devuelto P = false ->
  mem_libros m !! libro P = Some B ->
  mem_usuarios m !! usuario P = Some U ->
  mem_gestores m !! self1 = Some G1 ->
  mem_gestores m !! self2 = Some G2 ->
  exists m1 m2 : Mundo,
    devolver_libro self1 p m = Some (tt, m1) /\
    devolver_libro self2 p m = Some (tt, m2) /\
    mem_libros m1 = mem_libros m2 /\
    mem_prestamos m1 = mem_prestamos m2 /\
    mem_gestores m1 = mem_gestores m /\
    mem_gestores m2 = mem_gestores m /\
    (calculadora_multa G1 = calculadora_multa G2 -> m1 = m2) /\
    (reloj m (lecturas m) <= fecha_devolucion P -> m1 = m2).
Proof.
  intros Hp Hd Hb Hu Hg1 Hg2. eexists _, _.
  split; [by apply (devolver_libro_hecho m self1 p P B U G1)|].
  split; [by apply (devolver_libro_hecho m self2 p P B U G2)|].
  do 4 (split; [done|]). split.
  - by intros ->.
  - intros Hle. by rewrite !veredicto_a_tiempo.
Qed.

Lemma devolver_libro_cualquier_gestor_witness :
  exists m1 m2 : Mundo,
    devolver_libro 0%nat 0%nat (Ejemplo.mundo_dos_gestores Ejemplo.t0) = Some (tt, m1) /\
    devolver_libro 1%nat 0%nat (Ejemplo.mundo_dos_gestores Ejemplo.t0) = Some (tt, m2) /\
    mem_libros m1 = mem_libros m2 /\
    mem_prestamos m1 = mem_prestamos m2 /\
    mem_gestores m1 = mem_gestores (Ejemplo.mundo_dos_gestores Ejemplo.t0) /\
    mem_gestores m2 = mem_gestores (Ejemplo.mundo_dos_gestores Ejemplo.t0) /\
    (MultaEstandar = MultaEstudiante -> m1 = m2) /\
    (Ejemplo.reloj_us 5 <= Ejemplo.t0 -> m1 = m2).
Proof.
  apply (devolver_libro_cualquier_gestor (Ejemplo.mundo_dos_gestores Ejemplo.t0)
           0%nat 1%nat 0%nat (mk_Prestamo 0%nat 0%nat Ejemplo.t0 Ejemplo.t0 false)
           (con_disponible false Ejemplo.libro1) Ejemplo.usuario1
           (con_prestamos [0%nat] Ejemplo.gestor_regular) Ejemplo.gestor_estudiante);
    reflexivity.
Defined.

(** X10: the number of days that a late return reports is never
    negative and does not go down when the return is made later; so
    under the standard and the student policy a later return never has
    a smaller fine, and at any time the VIP fine is at most the student
    fine, which is at most the standard fine. *)
Theorem multa_crece_con_el_retraso (vence a1 a2 : datetime) :
  vence < a1 -> a1 <= a2 ->
  let d1 := days (datetime_sub a1 vence) in
  let d2 := days (datetime_sub a2 vence) in
  0 <= d1 <= d2 /\
  calcular MultaEstandar d1 <= calcular MultaEstandar d2 /\
  calcular MultaEstudiante d1 <= calcular MultaEstudiante d2 /\
  calcular MultaVIP d1 <= calcular MultaEstudiante d1 <= calcular MultaEstandar d1.
Proof.
  intros Hlt Hle d1 d2.
  assert (H0 : 0 <= d1) by (apply days_no_negativo; lia).
  assert (H12 : d1 <= d2) by by apply days_creciente.
  unfold MultaEstandar, MultaEstudiante, MultaVIP. cbn [calcular]. lia.
Qed.

Lemma multa_crece_con_el_retraso_witness :
  let d1 := days (datetime_sub (Ejemplo.t0 + 1) Ejemplo.t0) in
  let d2 := days (datetime_sub (Ejemplo.t0 + 3 * us_por_dia) Ejemplo.t0) in
  0 <= d1 <= d2 /\
  calcular MultaEstandar d1 <= calcular MultaEstandar d2 /\
  calcular MultaEstudiante d1 <= calcular MultaEstudiante d2 /\
  calcular MultaVIP d1 <= calcular MultaEstudiante d1 <= calcular MultaEstandar d1.
Proof.
  apply (multa_crece_con_el_retraso Ejemplo.t0 (Ejemplo.t0 + 1)
           (Ejemplo.t0 + 3 * us_por_dia)); by vm_compute.
Defined.

(** ** Constructors *)

(** X11: [Libro(titulo, autor, isbn)] makes a book that did not exist,
    leaves the books that did as they were, and the new book can be
    lent at once: a checkout of it by a manager and for a user that
    exist goes through, and the book lent has the three strings given
    to the constructor. *)
Theorem libro_nuevo_se_presta
    (m : Mundo) (t a i : string) (self u : ref) (G : GestorPrestamos) (U : Usuario) :
  mem_gestores m !! self = Some G ->
  mem_usuarios m !! u = Some U ->
  exists (b p : ref) (m1 m2 : Mundo) (B2 : Libro),
    Libro_init t a i m = Some (b, m1) /\
    mem_libros m !! b = None /\
    (forall (b0 : ref) B0, mem_libros m !! b0 = Some B0 -> mem_libros m1 !! b0 = Some B0) /\
    realizar_prestamo self b u m1 = Some (Some p, m2) /\
    mem_libros m2 !! b = Some B2 /\
    titulo B2 = t /\ autor B2 = a /\ isbn B2 = i /\ disponible B2 = false.
Proof.
  intros HG HU. unfold ref in *.
  set (m1 := con_libros (mem_libros m ++ [mk_Libro t a i true]) m).
  assert (Hb1 : mem_libros m1 !! length (mem_libros m) = Some (mk_Libro t a i true))
    by apply tabla_nuevo.
  eexists (length (mem_libros m)), _, m1, _, (con_disponible false (mk_Libro t a i true)).
  split; [done|]. split; [by apply lookup_ge_None_2|].
  split; [intros b0 B0 HB0; by apply tabla_viejo|].
  split; [by apply (realizar_prestamo_hecho m1 self _ u _ G U Hb1)|].
  split; [|done]. unfold tras_prestamo. reducir. by eapply tabla_asignado.
Qed.

Lemma libro_nuevo_se_presta_witness :
  exists (b p : ref) (m1 m2 : Mundo) (B2 : Libro),
    Libro_init "Cien años de soledad" "Gabriel García Márquez" "978-84-376-0494-7"
      Ejemplo.mundo1 = Some (b, m1) /\
    mem_libros Ejemplo.mundo1 !! b = None /\
    (forall (b0 : ref) B0, mem_libros Ejemplo.mundo1 !! b0 = Some B0 ->
                           mem_libros m1 !! b0 = Some B0) /\
    realizar_prestamo 0%nat b 0%nat m1 = Some (Some p, m2) /\
    mem_libros m2 !! b = Some B2 /\
    titulo B2 = "Cien años de soledad" /\ autor B2 = "Gabriel García Márquez" /\
    isbn B2 = "978-84-376-0494-7" /\ disponible B2 = false.
Proof.
  apply (libro_nuevo_se_presta Ejemplo.mundo1 _ _ _ 0%nat 0%nat
           (con_prestamos [0%nat] Ejemplo.gestor_regular) Ejemplo.usuario1);
    reflexivity.
Defined.

(** X12: [GestorPrestamos(calculadora_multa, notificador)] makes a
    manager that did not exist, with the policy and the notifier given
    and with no loan; after its first checkout that goes through its
    list holds that loan and nothing else. *)
Theorem gestor_nuevo_presta
    (m : Mundo) (c : CalculadoraMulta) (n : Notificador) (b u : ref)
    (B : Libro) (U : Usuario) :
  mem_libros m !! b = Some B ->
  disponible B = true ->
  mem_usuarios m !! u = Some U ->
  exists (g p : ref) (m1 m2 : Mundo) (G1 G2 : GestorPrestamos),
    GestorPrestamos_init c n m = Some (g, m1) /\
    mem_gestores m !! g = None /\
    mem_gestores m1 !! g = Some G1 /\ prestamos G1 = [] /\
    realizar_prestamo g b u m1 = Some (Some p, m2) /\
    mem_gestores m2 !! g = Some G2 /\
    prestamos G2 = [p] /\
    calculadora_multa G2 = c /\ notificador G2 = n.
Proof.
  intros Hb Hd Hu. unfold ref in *.
  set (m1 := con_gestores (mem_gestores m ++ [mk_GestorPrestamos c n []]) m).
  assert (Hg1 : mem_gestores m1 !! length (mem_gestores m)
                = Some (mk_GestorPrestamos c n [])) by apply tabla_nuevo.
  eexists (length (mem_gestores m)), _, m1, _, (mk_GestorPrestamos c n []), _.
  split; [done|]. split; [by apply lookup_ge_None_2|]. do 2 (split; [done|]).
  split; [by apply (realizar_prestamo_hecho m1 _ b u B _ U Hb Hd Hg1)|].
  unfold tras_prestamo. reducir. split; [by eapply tabla_asignado | done].
Qed.

Lemma gestor_nuevo_presta_witness :
  exists (g p : ref) (m1 m2 : Mundo) (G1 G2 : GestorPrestamos),
    GestorPrestamos_init MultaEstudiante NotificadorSMS Ejemplo.mundo0 = Some (g, m1) /\
    mem_gestores Ejemplo.mundo0 !! g = None /\
    mem_gestores m1 !! g = Some G1 /\ prestamos G1 = [] /\
    realizar_prestamo g 0%nat 0%nat m1 = Some (Some p, m2) /\
    mem_gestores m2 !! g = Some G2 /\
    prestamos G2 = [p] /\
    calculadora_multa G2 = MultaEstudiante /\ notificador G2 = NotificadorSMS.
Proof.
  apply (gestor_nuevo_presta Ejemplo.mundo0 MultaEstudiante NotificadorSMS 0%nat 0%nat
           Ejemplo.libro1 Ejemplo.usuario1); reflexivity.
Defined.

(** ** Along a history *)

Lemma mundo1_devuelve :
  devolver_libro 0%nat 0%nat Ejemplo.mundo1 = Some (tt, Ejemplo.mundo2).
Proof.
  by apply (devolver_libro_a_tiempo Ejemplo.mundo1 0%nat 0%nat
              (prestamo_nuevo Ejemplo.mundo0 0%nat 0%nat)
              (con_disponible false Ejemplo.libro1) Ejemplo.usuario1).
Qed.

Lemma mundo1_historia : rtc paso Ejemplo.mundo1 Ejemplo.mundo2.
Proof.
  apply rtc_once. apply (paso_devolver_libro 0%nat 0%nat tt). apply mundo1_devuelve.
Qed.

Lemma mundo0_inicial : inicial Ejemplo.mundo0.
Proof.
  split; [reflexivity|]. intros [|g] G HG; [|done]. injection HG as <-. reflexivity.
Qed.

Lemma mundo2_alcanzable : alcanzable Ejemplo.mundo2.
Proof.
  exists Ejemplo.mundo0. split; [apply mundo0_inicial|].
  transitivity Ejemplo.mundo1; [apply mundo0_historia | apply mundo1_historia].
Qed.

(** X13: whatever is done afterwards, a loan stays in the store with
    the book, the user and the checkout time it was made with, and a
    loan that is returned stays returned. *)
Theorem prestamo_devuelto_para_siempre
    (m m' : Mundo) (p : ref) (P : Prestamo) :
  rtc paso m m' ->
  mem_prestamos m !! p = Some P ->
  exists P' : Prestamo,
    mem_prestamos m' !! p = Some P' /\
    libro P' = libro P /\ usuario P' = usuario P /\
    fecha_prestamo P' = fecha_prestamo P /\
    (devuelto P = true -> devuelto P' = true).
Proof. intros Hh HP. by apply (cons_prestamos m m' (conserva_historia m m' Hh)). Qed.

Lemma prestamo_devuelto_para_siempre_witness :
  exists P' : Prestamo,
    mem_prestamos
      (con_salida (salida Ejemplo.mundo2 ++ [LYaDevuelto]) Ejemplo.mundo2) !! 0%nat
    = Some P' /\
    libro P' = 0%nat /\ usuario P' = 0%nat /\
    fecha_prestamo P' = Ejemplo.t0 /\
    (true = true -> devuelto P' = true).
Proof.
  apply (prestamo_devuelto_para_siempre Ejemplo.mundo2
           (con_salida (salida Ejemplo.mundo2 ++ [LYaDevuelto]) Ejemplo.mundo2) 0%nat
           (con_devuelto true (prestamo_nuevo Ejemplo.mundo0 0%nat 0%nat)));
    [|reflexivity].
  apply rtc_once. apply (paso_devolver_libro 0%nat 0%nat tt).
  by apply (devolver_libro_repetido Ejemplo.mundo2 0%nat 0%nat
              (con_devuelto true (prestamo_nuevo Ejemplo.mundo0 0%nat 0%nat))).
Defined.

(** X14: whatever is done afterwards, a manager keeps the policy and
    the notifier it was made with, and its list of loans only grows at
    its end: no loan is ever taken out of it or moved. *)
Theorem gestor_lista_solo_crece
    (m m' : Mundo) (g : ref) (G : GestorPrestamos) :
  rtc paso m m' ->
  mem_gestores m !! g = Some G ->
  exists G' : GestorPrestamos,
    mem_gestores m' !! g = Some G' /\
    calculadora_multa G' = calculadora_multa G /\
    notificador G' = notificador G /\
    prestamos G `prefix_of` prestamos G'.
Proof. intros Hh HG. by apply (cons_gestores m m' (conserva_historia m m' Hh)). Qed.

Lemma gestor_lista_solo_crece_witness :
  exists G' : GestorPrestamos,
    mem_gestores Ejemplo.mundo1 !! 0%nat = Some G' /\
    calculadora_multa G' = MultaEstandar /\
    notificador G' = NotificadorEmail /\
    [] `prefix_of` prestamos G'.
Proof.
  apply (gestor_lista_solo_crece Ejemplo.mundo0 Ejemplo.mundo1 0%nat
           Ejemplo.gestor_regular);
    [apply mundo0_historia | reflexivity].
Defined.

(** X15: no method changes a user, nor the title, author or isbn of a
    book: whatever is done afterwards, every user is as it was and
    every book has the three strings it had. *)
Theorem libros_y_usuarios_fijos (m m' : Mundo) :
  rtc paso m m' ->
  (forall (u : ref) U, mem_usuarios m !! u = Some U -> mem_usuarios m' !! u = Some U) /\
  (forall (b : ref) B, mem_libros m !! b = Some B ->
     exists B', mem_libros m' !! b = Some B' /\
                titulo B' = titulo B /\ autor B' = autor B /\ isbn B' = isbn B).
Proof.
  intros Hh. destruct (conserva_historia m m' Hh) as [HU HL _ _]. by split.
Qed.

Lemma libros_y_usuarios_fijos_witness :
  (forall (u : ref) U, mem_usuarios Ejemplo.mundo0 !! u = Some U ->
                       mem_usuarios Ejemplo.mundo1 !! u = Some U) /\
  (forall (b : ref) B, mem_libros Ejemplo.mundo0 !! b = Some B ->
     exists B', mem_libros Ejemplo.mundo1 !! b = Some B' /\
                titulo B' = titulo B /\ autor B' = autor B /\ isbn B' = isbn B).
Proof.
  apply (libros_y_usuarios_fijos Ejemplo.mundo0 Ejemplo.mundo1). apply mundo0_historia.
Defined.

(** X16: in a store reached from an initial one every loan is in the
    list of one manager and of no other. *)
Theorem prestamo_de_un_solo_gestor (m : Mundo) (p : ref) (P : Prestamo) :
  alcanzable m ->
  mem_prestamos m !! p = Some P ->
  exists (g : ref) (G : GestorPrestamos),
    mem_gestores m !! g = Some G /\ p ∈ prestamos G /\
    forall (g' : ref) G', mem_gestores m !! g' = Some G' -> p ∈ prestamos G' -> g' = g.
Proof.
  intros [Hv Hn Hd Hc]%listas_propias_alcanzable HP. unfold ref in *.
  destruct (Hc p P HP) as (g & G & HG & Hp). exists g, G.
  split; [done|]. split; [done|]. intros g' G' HG' Hp'. by eapply Hd.
Qed.

Lemma prestamo_de_un_solo_gestor_witness :
  exists (g : ref) (G : GestorPrestamos),
    mem_gestores Ejemplo.mundo2 !! g = Some G /\ 0%nat ∈ prestamos G /\
    forall (g' : ref) G', mem_gestores Ejemplo.mundo2 !! g' = Some G' ->
                          0%nat ∈ prestamos G' -> g' = g.
Proof.
  apply (prestamo_de_un_solo_gestor Ejemplo.mundo2 0%nat
           (con_devuelto true (prestamo_nuevo Ejemplo.mundo0 0%nat 0%nat)));
    [apply mundo2_alcanzable | reflexivity].
Defined.

(** X17: in a store reached from an initial one the list of a manager
    holds no loan twice, and each of its entries is a loan of the
    store. *)
Theorem lista_sin_repetir (m : Mundo) (g : ref) (G : GestorPrestamos) :
  alcanzable m ->
  mem_gestores m !! g = Some G ->
  NoDup (prestamos G) /\
  forall p : ref, p ∈ prestamos G -> is_Some (mem_prestamos m !! p).
Proof.
  intros [Hv Hn Hd Hc]%listas_propias_alcanzable HG. unfold ref in *.
  split; [by eapply Hn|]. intros p Hp. by eapply Hv.
Qed.

Lemma lista_sin_repetir_witness :
  NoDup (prestamos (con_prestamos [0%nat] Ejemplo.gestor_regular)) /\
  forall p : ref, p ∈ prestamos (con_prestamos [0%nat] Ejemplo.gestor_regular) ->
                  is_Some (mem_prestamos Ejemplo.mundo2 !! p).
Proof.
  apply (lista_sin_repetir Ejemplo.mundo2 0%nat
           (con_prestamos [0%nat] Ejemplo.gestor_regular));
    [apply mundo2_alcanzable | reflexivity].
Defined.

(** X18: in a store reached from an initial one a book has at most one
    open loan: two loans of the same book that are both not returned
    are one loan. *)
Theorem un_prestamo_abierto_por_libro
    (m : Mundo) (p q : ref) (P Q : Prestamo) :
  alcanzable m ->
  mem_prestamos m !! p = Some P ->
  mem_prestamos m !! q = Some Q ->
  devuelto P = false -> devuelto Q = false ->
  libro P = libro Q ->
  p = q.
Proof.
  intros Halc HP HQ HdP HdQ Hl. unfold ref in *.
  by eapply (inv_unico m (invariante_alcanzable m Halc)).
Qed.

Lemma un_prestamo_abierto_por_libro_witness : 0%nat = 0%nat.
Proof.
  apply (un_prestamo_abierto_por_libro Ejemplo.mundo1 0%nat 0%nat
           (prestamo_nuevo Ejemplo.mundo0 0%nat 0%nat)
           (prestamo_nuevo Ejemplo.mundo0 0%nat 0%nat));
    [exists Ejemplo.mundo0; split; [apply mundo0_inicial | apply mundo0_historia]
    | reflexivity..].
Defined.

(** X19: when every book is on the shelf at the start, a book that is
    not available in a store reached from there has an open loan, and
    that loan is in the list of some manager. *)
Theorem no_disponible_tiene_prestamo
    (m0 m : Mundo) (b : ref) (B : Libro) :
  inicial m0 ->
  todos_disponibles m0 ->
  rtc paso m0 m ->
  mem_libros m !! b = Some B ->
  disponible B = false ->
  exists (p g : ref) (P : Prestamo) (G : GestorPrestamos),
    mem_prestamos m !! p = Some P /\ libro P = b /\ devuelto P = false /\
    mem_gestores m !! g = Some G /\ p ∈ prestamos G.
Proof.
  intros Hini Htodos Hh HB Hd. unfold ref in *.
  assert (Hoc : ocupado_por_prestamo m).
  { eapply (historia_ind ocupado_por_prestamo);
      [apply ocupado_por_prestamo_paso | done |].
    intros b0 B0 HB0 HdB0. specialize (Htodos b0 B0 HB0). congruence. }
  destruct (Hoc b B HB Hd) as (p & P & HP & Hl & HdP).
  assert (Hlp : listas_propias m) by (apply listas_propias_alcanzable; by exists m0).
  destruct (lp_cubren m Hlp p P HP) as (g & G & HG & Hp).
  by exists p, g, P, G.
Qed.

Lemma no_disponible_tiene_prestamo_witness :
  exists (p g : ref) (P : Prestamo) (G : GestorPrestamos),
    mem_prestamos Ejemplo.mundo1 !! p = Some P /\ libro P = 0%nat /\
    devuelto P = false /\
    mem_gestores Ejemplo.mundo1 !! g = Some G /\ p ∈ prestamos G.
Proof.
  apply (no_disponible_tiene_prestamo Ejemplo.mundo0 Ejemplo.mundo1 0%nat
           (con_disponible false Ejemplo.libro1));
    [apply mundo0_inicial
    | intros [|b] B HB; [injection HB as <-; reflexivity | done]
    | apply mundo0_historia | reflexivity | reflexivity].
Defined.

(** ** Replacing the notifier *)

(** X20: the notifier of a manager can be replaced by any other without
    changing what a checkout does to the program's objects.  The same
    call on the same store, with only the notifier of the manager
    replaced, has the same result (the same loan, or the same refusal)
    and leaves the same books, users and loans, and the same list and
    policy in every manager. *)
Theorem notificador_sustituible
    (m m1 : Mundo) (self b u : ref) (G : GestorPrestamos) (n' : Notificador)
    (r : option ref) :
  mem_gestores m !! self = Some G ->
  realizar_prestamo self b u m = Some (r, m1) ->
  let m_alt :=
    con_gestores
      (<[self := mk_GestorPrestamos (calculadora_multa G) n' (prestamos G)]>
         (mem_gestores m)) m in
  exists m1' : Mundo,
    realizar_prestamo self b u m_alt = Some (r, m1') /\
    mem_libros m1' = mem_libros m1 /\
    mem_usuarios m1' = mem_usuarios m1 /\
    mem_prestamos m1' = mem_prestamos m1 /\
    prestamos <$> mem_gestores m1' = prestamos <$> mem_gestores m1 /\
    calculadora_multa <$> mem_gestores m1' = calculadora_multa <$> mem_gestores m1.
Proof.
  intros HG H m_alt. unfold ref in *.
  set (G_alt := mk_GestorPrestamos (calculadora_multa G) n' (prestamos G)) in *.
  assert (HG_alt : mem_gestores m_alt !! self = Some G_alt)
    by (unfold m_alt, con_gestores; reducir; by eapply tabla_asignado).
  assert (Hpr : prestamos <$> mem_gestores m_alt = prestamos <$> mem_gestores m).
  { unfold m_alt, con_gestores. reducir. rewrite list_fmap_insert.
    apply list_insert_id. by rewrite list_lookup_fmap, HG. }
  assert (Hca : calculadora_multa <$> mem_gestores m_alt
                = calculadora_multa <$> mem_gestores m).
  { unfold m_alt, con_gestores. reducir. rewrite list_fmap_insert.
    apply list_insert_id. by rewrite list_lookup_fmap, HG. }
  apply realizar_prestamo_inv in H
    as (B & Hb & [(Hd & -> & ->)|(Hd & G0 & U & HG0 & HU & -> & ->)]).
  - eexists. split; [by apply (realizar_prestamo_rechazado m_alt self b u B)|].
    by repeat split.
  - unfold ref in *. assert (G0 = G) as -> by congruence.
    eexists. split; [by apply (realizar_prestamo_hecho m_alt self b u B G_alt U)|].
    unfold tras_prestamo. reducir. do 3 (split; [done|]).
    unfold m_alt, con_gestores. reducir.
    rewrite list_insert_insert_eq, !list_fmap_insert. done.
Qed.

Lemma notificador_sustituible_witness :
  let m_alt :=
    con_gestores
      (<[0%nat := mk_GestorPrestamos MultaEstandar NotificadorSMS []]>
         (mem_gestores Ejemplo.mundo0)) Ejemplo.mundo0 in
  exists m1' : Mundo,
    realizar_prestamo 0%nat 0%nat 0%nat m_alt = Some (Some 0%nat, m1') /\
    mem_libros m1' = mem_libros Ejemplo.mundo1 /\
    mem_usuarios m1' = mem_usuarios Ejemplo.mundo1 /\
    mem_prestamos m1' = mem_prestamos Ejemplo.mundo1 /\
    prestamos <$> mem_gestores m1' = prestamos <$> mem_gestores Ejemplo.mundo1 /\
    calculadora_multa <$> mem_gestores m1'
    = calculadora_multa <$> mem_gestores Ejemplo.mundo1.
Proof.
  apply (notificador_sustituible Ejemplo.mundo0 Ejemplo.mundo1 0%nat 0%nat 0%nat
           Ejemplo.gestor_regular NotificadorSMS (Some 0%nat));
    [reflexivity | apply mundo0_presta].
Defined.
